(** * Nearby-Hotels: a shallow embedding of [script.js]

    The page script reads the user's position, asks the Overpass service
    for hotels within 3 km, ranks them by great-circle distance and shows
    the six closest as cards and as map markers.

    Numbers: JavaScript numbers are modelled as real numbers ([R]), the
    exact-arithmetic reading of the IEEE doubles the script computes with
    (no rounding, no NaN).  The theorems below therefore take a distance
    only as the value [distanceKm] computes; none of them rests on an
    equation or a comparison between computed distances.  Tests on reals
    go through the decision procedures of the standard library
    ([Req_dec_T], [Rle_dec]).

    Layout: platform functions ([Module JS]), the response model, the
    functions of the script in source order, the event loop, then the
    theorems. *)

From Stdlib Require Import Reals Lra Lia List String Bool Arith.
From Stdlib Require Import Sorting.Permutation DecimalString.
Import ListNotations.

Open Scope R_scope.

(* ================================================================= *)
(** ** Platform functions used by the script *)

Module JS.

(** Truthiness of a number: [0] is falsy, every other real is truthy. *)
Definition truthy_num (x : R) : bool :=
  if Req_dec_T x 0 then false else true.

(** Truthiness of a property that holds a number or is absent
    ([undefined] is falsy). *)
Definition truthy_opt_num (o : option R) : bool :=
  match o with
  | Some x => truthy_num x
  | None => false
  end.

(** Truthiness of a string: only the empty string is falsy. *)
Definition truthy_str (s : string) : bool :=
  negb (String.eqb s EmptyString).

(** [Math.atan2(y, x)]: the angle of the point [(x, y)], in (-PI, PI]. *)
Definition atan2 (y x : R) : R :=
  if Rlt_dec 0 x then atan (y / x)
  else if Rlt_dec x 0 then
    (if Rle_dec 0 y then atan (y / x) + PI else atan (y / x) - PI)
  else if Rlt_dec 0 y then PI / 2
  else if Rlt_dec y 0 then - (PI / 2)
  else 0.

(** [Array.prototype.sort(compareFn)].  ECMAScript requires the sort to be
    stable, and for a consistent comparator the stable sorted arrangement
    is unique; insertion from the right computes it.  An element [x] that
    stood before [y] goes before it unless [compareFn x y > 0]. *)
Section Sort.
Context {A : Type} (compareFn : A -> A -> R).

Fixpoint insert (x : A) (l : list A) : list A :=
  match l with
  | [] => [x]
  | y :: l' =>
      if Rle_dec (compareFn x y) 0 then x :: y :: l'
      else y :: insert x l'
  end.

Fixpoint sort (l : list A) : list A :=
  match l with
  | [] => []
  | x :: l' => insert x (sort l')
  end.
End Sort.

(** [Array.prototype.slice(0, n)]. *)
Definition slice0 {A : Type} (n : nat) (l : list A) : list A := firstn n l.

(** Decimal rendering of an array length inside a template string. *)
Definition string_of_nat (n : nat) : string :=
  NilEmpty.string_of_uint (Nat.to_uint n).

End JS.

(* ================================================================= *)
(** ** The response of the Overpass service

    An element of [data.elements] as the script reads it: every property
    may be absent.  Coordinates are numbers, tags map strings to strings
    (the own properties of the parsed object, keys distinct). *)

Record latlon : Type := LatLon {
  ll_lat : option R;
  ll_lon : option R
}.

Record element : Type := Element {
  el_type : option string;
  el_lat : option R;
  el_lon : option R;
  el_center : option latlon;
  el_tags : option (list (string * string))
}.

(** Property lookup in a tag object. *)
Fixpoint tag_get (key : string) (tags : list (string * string)) : option string :=
  match tags with
  | [] => None
  | (k, v) :: tags' => if String.eqb k key then Some v else tag_get key tags'
  end.

(** One entry of [results]: [{ name, lat, lon, distanceKm }]. *)
Record hotel : Type := Hotel {
  h_name : string;
  h_lat : R;
  h_lon : R;
  h_distanceKm : R
}.

(* ================================================================= *)
(** ** [distanceKm] (script.js 43-54) *)

Definition distanceKm (lat1 lon1 lat2 lon2 : R) : R :=
  let R := 6371 in
  let dLat := ((lat2 - lat1) * PI) / 180 in
  let dLon := ((lon2 - lon1) * PI) / 180 in
  let a :=
    sin (dLat / 2) ^ 2 +
    cos ((lat1 * PI) / 180) *
      cos ((lat2 * PI) / 180) *
      sin (dLon / 2) ^ 2 in
  let c := 2 * JS.atan2 (sqrt a) (sqrt (1 - a)) in
  R * c.

(* ================================================================= *)
(** ** The parsing loop of [fetchHotels] (script.js 79-107) *)

Definition unnamed_hotel : string := "Unnamed hotel (OpenStreetMap)".

(** [el.type === "node" && el.lat && el.lon] *)
Definition node_with_coords (el : element) : bool :=
  match el_type el with
  | Some t => String.eqb t "node"
  | None => false
  end && JS.truthy_opt_num (el_lat el) && JS.truthy_opt_num (el_lon el).

(** [el.center && el.center.lat && el.center.lon] *)
Definition center_with_coords (el : element) : bool :=
  match el_center el with
  | Some c => JS.truthy_opt_num (ll_lat c) && JS.truthy_opt_num (ll_lon c)
  | None => false
  end.

(** The value of a numeric property that has been tested truthy. *)
Definition num_of (o : option R) : R :=
  match o with
  | Some x => x
  | None => 0
  end.

(** Lines 82-92: the pair [(hLat, hLon)], or [None] for [continue]. *)
Definition resolve_coord (el : element) : option (R * R) :=
  if node_with_coords el then
    Some (num_of (el_lat el), num_of (el_lon el))
  else if center_with_coords el then
    match el_center el with
    | Some c => Some (num_of (ll_lat c), num_of (ll_lon c))
    | None => None
    end
  else None.

(** Lines 94-97: [el.tags && el.tags.name ? el.tags.name : "Unnamed ..."]. *)
Definition resolve_name (el : element) : string :=
  match el_tags el with
  | Some tags =>
      match tag_get "name" tags with
      | Some n => if JS.truthy_str n then n else unnamed_hotel
      | None => unnamed_hotel
      end
  | None => unnamed_hotel
  end.

(** Lines 94-106: the object pushed for an element resolved to
    [(hLat, hLon)]. *)
Definition result_of (lat lon : R) (el : element) (hLat hLon : R) : hotel :=
  let name := resolve_name el in
  let dist := distanceKm lat lon hLat hLon in
  {| h_name := name; h_lat := hLat; h_lon := hLon; h_distanceKm := dist |}.

(** One iteration of the loop body: the pushed object, or [None] when the
    iteration ends in [continue]. *)
Definition parse_element (lat lon : R) (el : element) : option hotel :=
  match resolve_coord el with
  | Some (hLat, hLon) => Some (result_of lat lon el hLat hLon)
  | None => None
  end.

(** The [for ... of] loop, with [results] as the accumulator ([push]
    appends at the end). *)
Fixpoint parse_loop (lat lon : R) (els : list element) (results : list hotel)
  : list hotel :=
  match els with
  | [] => results
  | el :: els' =>
      match parse_element lat lon el with
      | Some h => parse_loop lat lon els' (results ++ [h])
      | None => parse_loop lat lon els' results
      end
  end.

(** [data.elements || []] followed by the loop, from [results = []]. *)
Definition parse (lat lon : R) (elements : option (list element)) : list hotel :=
  parse_loop lat lon
    (match elements with Some els => els | None => [] end) [].

(** Lines 116-117: [results.sort((a, b) => a.distanceKm - b.distanceKm)] and
    [results.slice(0, 6)]. *)
Definition by_distance (a b : hotel) : R := h_distanceKm a - h_distanceKm b.

Definition sort_results (results : list hotel) : list hotel :=
  JS.sort by_distance results.

Definition top_of (results : list hotel) : list hotel :=
  JS.slice0 6 (sort_results results).

(* ================================================================= *)
(** ** The page: DOM elements, script variables, outstanding callbacks *)

(** A card appended to [hotelsList]: the name and the distance put in the
    markup (the distance is shown by [toFixed(2)]) and the coordinate the
    "Open in Maps" button opens. *)
Record card : Type := Card {
  card_name : string;
  card_distance : R;
  card_query : R * R
}.

(** A marker of [hotelsLayer] with its popup. *)
Record marker : Type := Marker {
  mk_latlng : R * R;
  mk_popup_name : string;
  mk_popup_distance : R
}.

(** The Overpass query of one request: radius in metres and centre. *)
Record query : Type := Query {
  q_radius : nat;
  q_lat : R;
  q_lon : R
}.

(** The callback the page is waiting for, if any. *)
Inductive pending : Type :=
| NoCallback
| AwaitPosition
| AwaitFetch (lat lon : R).

Record page : Type := Page {
  status : string;                      (* statusEl.textContent *)
  findBtn_disabled : bool;              (* findBtn.disabled *)
  hotelsList : list card;               (* children of hotelsList *)
  map : option (R * R);                 (* let map: the centre last given
                                           to [setView] *)
  userMarker : option (R * R);          (* let userMarker *)
  hotelsLayer : option (list marker);   (* let hotelsLayer *)
  waiting : pending;                    (* registered callback *)
  requests : list query                 (* fetch calls made so far *)
}.

Definition set_status (s : string) (p : page) : page :=
  {| status := s; findBtn_disabled := findBtn_disabled p;
     hotelsList := hotelsList p; map := map p; userMarker := userMarker p;
     hotelsLayer := hotelsLayer p; waiting := waiting p;
     requests := requests p |}.

Definition set_disabled (b : bool) (p : page) : page :=
  {| status := status p; findBtn_disabled := b;
     hotelsList := hotelsList p; map := map p; userMarker := userMarker p;
     hotelsLayer := hotelsLayer p; waiting := waiting p;
     requests := requests p |}.

Definition set_hotelsList (l : list card) (p : page) : page :=
  {| status := status p; findBtn_disabled := findBtn_disabled p;
     hotelsList := l; map := map p; userMarker := userMarker p;
     hotelsLayer := hotelsLayer p; waiting := waiting p;
     requests := requests p |}.

Definition set_map (m : option (R * R)) (p : page) : page :=
  {| status := status p; findBtn_disabled := findBtn_disabled p;
     hotelsList := hotelsList p; map := m; userMarker := userMarker p;
     hotelsLayer := hotelsLayer p; waiting := waiting p;
     requests := requests p |}.

Definition set_userMarker (m : option (R * R)) (p : page) : page :=
  {| status := status p; findBtn_disabled := findBtn_disabled p;
     hotelsList := hotelsList p; map := map p; userMarker := m;
     hotelsLayer := hotelsLayer p; waiting := waiting p;
     requests := requests p |}.

Definition set_hotelsLayer (l : option (list marker)) (p : page) : page :=
  {| status := status p; findBtn_disabled := findBtn_disabled p;
     hotelsList := hotelsList p; map := map p; userMarker := userMarker p;
     hotelsLayer := l; waiting := waiting p;
     requests := requests p |}.

Definition set_waiting (w : pending) (p : page) : page :=
  {| status := status p; findBtn_disabled := findBtn_disabled p;
     hotelsList := hotelsList p; map := map p; userMarker := userMarker p;
     hotelsLayer := hotelsLayer p; waiting := w;
     requests := requests p |}.

Definition add_request (q : query) (p : page) : page :=
  {| status := status p; findBtn_disabled := findBtn_disabled p;
     hotelsList := hotelsList p; map := map p; userMarker := userMarker p;
     hotelsLayer := hotelsLayer p; waiting := waiting p;
     requests := requests p ++ [q] |}.

(** Status texts (script.js 57, 110, 121, 126, 173, 177, 192, 204). *)
Module Msg.
Definition waiting_for_search : string := "Waiting for search…".
Definition getting_location : string := "Getting your location…".
Definition searching : string := "Searching for hotels nearby…".
Definition no_hotels : string :=
  "No hotels found nearby. Try moving outside / closer to main road.".
Definition server_error : string :=
  "Error contacting map server. Check internet and try again.".
Definition location_denied : string :=
  "Location permission denied or unavailable. Please enable location and try again.".
Definition not_supported : string :=
  "Geolocation not supported on this device.".
Definition found (n m : nat) : string :=
  "Found " ++ JS.string_of_nat n ++ " places, showing closest "
    ++ JS.string_of_nat m ++ ".".
End Msg.

(* ================================================================= *)
(** ** Statements that mutate the page and may throw *)

Inductive error : Type :=
| TransportError                (* fetch rejected *)
| OverpassError (http : nat)    (* thrown on [!res.ok] *)
| SyntaxError                   (* res.json() rejected *)
| TypeError.                    (* a property of [null], a value not iterable *)

Inductive completion (A : Type) : Type :=
| Normal (a : A) (p : page)
| Throw (e : error) (p : page).
Arguments Normal {A} a p.
Arguments Throw {A} e p.

Definition stmt (A : Type) : Type := page -> completion A.

Definition ret {A : Type} (a : A) : stmt A := fun p => Normal a p.

Definition bind {A B : Type} (m : stmt A) (k : A -> stmt B) : stmt B :=
  fun p =>
    match m p with
    | Normal a p' => k a p'
    | Throw e p' => Throw e p'
    end.

Definition throw {A : Type} (e : error) : stmt A := fun p => Throw e p.

Definition update (f : page -> page) : stmt unit := fun p => Normal tt (f p).

Definition try_catch (body : stmt unit) (handler : error -> stmt unit)
  : stmt unit :=
  fun p =>
    match body p with
    | Normal a p' => Normal a p'
    | Throw e p' => handler e p'
    end.

(** The page a statement leaves behind, however it completes. *)
Definition page_after {A : Type} (c : completion A) : page :=
  match c with
  | Normal _ p => p
  | Throw _ p => p
  end.

Declare Scope stmt_scope.
Delimit Scope stmt_scope with stmt.
Notation "x <- m ;; k" := (bind m (fun x => k))
  (at level 61, m at next level, right associativity) : stmt_scope.
Notation "m ;; k" := (bind m (fun _ => k))
  (at level 61, right associativity) : stmt_scope.
Open Scope stmt_scope.

(* ================================================================= *)
(** ** [initMap] (script.js 18-41) *)

Definition initMap (lat lon : R) : stmt unit :=
  (* both branches of [if (!map)] leave the view centred at [lat, lon] *)
  (fun p =>
     match map p with
     | None => update (set_map (Some (lat, lon))) p
     | Some _ => update (set_map (Some (lat, lon))) p
     end) ;;
  (* [setLatLng] on the existing marker, or a new marker *)
  (fun p =>
     match userMarker p with
     | Some _ => update (set_userMarker (Some (lat, lon))) p
     | None => update (set_userMarker (Some (lat, lon))) p
     end) ;;
  (* [clearLayers] on the existing layer, or a new empty layer group *)
  (fun p =>
     match hotelsLayer p with
     | Some _ => update (set_hotelsLayer (Some [])) p
     | None => update (set_hotelsLayer (Some [])) p
     end).

(* ================================================================= *)
(** ** [renderHotels] and [plotHotelsOnMap] (script.js 132-169) *)

Definition card_of (h : hotel) : card :=
  {| card_name := h_name h;
     card_distance := h_distanceKm h;
     card_query := (h_lat h, h_lon h) |}.

Definition marker_of (h : hotel) : marker :=
  {| mk_latlng := (h_lat h, h_lon h);
     mk_popup_name := h_name h;
     mk_popup_distance := h_distanceKm h |}.

(** [forEach] with [appendChild]: one more child per hotel, in order. *)
Fixpoint append_cards (hotels : list hotel) : stmt unit :=
  match hotels with
  | [] => ret tt
  | h :: hotels' =>
      update (fun p => set_hotelsList (hotelsList p ++ [card_of h]) p) ;;
      append_cards hotels'
  end.

Definition renderHotels (hotels : list hotel) : stmt unit :=
  update (set_hotelsList []) ;;
  append_cards hotels.

(** [forEach] with [addTo(hotelsLayer)]; the layer exists when this runs. *)
Fixpoint add_markers (hotels : list hotel) : stmt unit :=
  match hotels with
  | [] => ret tt
  | h :: hotels' =>
      update (fun p =>
                match hotelsLayer p with
                | Some ms => set_hotelsLayer (Some (ms ++ [marker_of h])) p
                | None => p
                end) ;;
      add_markers hotels'
  end.

Definition plotHotelsOnMap (hotels : list hotel) : stmt unit :=
  fun p =>
    match hotelsLayer p with
    | None => ret tt p                                  (* early return *)
    | Some _ =>
        (update (set_hotelsLayer (Some [])) ;;          (* clearLayers *)
         add_markers hotels) p
    end.

(* ================================================================= *)
(** ** [fetchHotels] (script.js 56-130)

    The function runs up to [await fetch(url)], and resumes when the
    request has settled.  What the network hands back is the input of the
    second half. *)

(** A parsed body the loop of lines 81-107 cannot read to its end. *)
Inductive malformed : Type :=
| NullData                              (* the text [null]: [data.elements] throws *)
| NotIterable                           (* [elements] is a number other than 0,
                                           [true] or an object: [for ... of] throws *)
| NullElement (before : list element).  (* an array whose entry after [before]
                                           is [null]: [el.type] throws *)

(** The body of a response as [res.json()] sees it.  [BodyInvalid]: text
    that does not parse (an empty body included).  [BodyJson]: a parsed
    value read through [data.elements]: the list of its elements, or
    [None] when that property is absent or falsy (a parsed number, string
    or array has no such property).  An entry that is a number, a string
    or an array reads like an object without properties.
    [BodyMalformed]: a parsed value on which the loop throws. *)
Inductive body : Type :=
| BodyInvalid
| BodyJson (elements : option (list element))
| BodyMalformed (m : malformed).

(** The value [res.json()] resolves to. *)
Inductive data : Type :=
| DataJson (elements : option (list element))
| DataMalformed (m : malformed).

(** The response object: [res.ok], [res.status] and the body. *)
Record response : Type := Response {
  res_ok : bool;
  res_status : nat;
  res_body : body
}.

(** How the promise of [fetch(url)] settles. *)
Inductive fetch_result : Type :=
| FetchRejected
| FetchResponse (res : response).

Definition radiusMeters : nat := 3000.

(** Lines 57-75, up to the first [await]. *)
Definition fetchHotels_start (lat lon : R) : stmt unit :=
  update (set_status Msg.searching) ;;
  update (add_request {| q_radius := radiusMeters; q_lat := lat; q_lon := lon |}).

(** [await fetch(url)] *)
Definition await_fetch (r : fetch_result) : stmt response :=
  match r with
  | FetchRejected => throw TransportError
  | FetchResponse res => ret res
  end.

(** [await res.json()] *)
Definition res_json (b : body) : stmt data :=
  match b with
  | BodyInvalid => throw SyntaxError
  | BodyJson elements => ret (DataJson elements)
  | BodyMalformed m => ret (DataMalformed m)
  end.

(** Lines 79-107: [results] after the loop, unless reading [data] throws.
    What the loop had pushed before a [null] entry is lost with the
    exception. *)
Definition read_results (lat lon : R) (d : data) : stmt (list hotel) :=
  match d with
  | DataJson elements => ret (parse lat lon elements)
  | DataMalformed NullData => throw TypeError
  | DataMalformed NotIterable => throw TypeError
  | DataMalformed (NullElement before) =>
      let results := parse lat lon (Some before) in
      throw TypeError
  end.

(** Lines 74-129: the [try] block and its [catch]. *)
Definition fetchHotels_resume (lat lon : R) (r : fetch_result) : stmt unit :=
  try_catch
    (res <- await_fetch r ;;
     if negb (res_ok res) then throw (OverpassError (res_status res))
     else
       data <- res_json (res_body res) ;;
       results <- read_results lat lon data ;;
       if (List.length results =? 0)%nat then
         update (set_status Msg.no_hotels) ;;
         update (set_hotelsList []) ;;
         ret tt
       else
         let sorted := sort_results results in
         let top := JS.slice0 6 sorted in
         renderHotels top ;;
         plotHotelsOnMap top ;;
         update (set_status (Msg.found (List.length sorted) (List.length top))))
    (fun err =>
       update (set_status Msg.server_error) ;;
       update (set_hotelsList [])).

(* ================================================================= *)
(** ** [getLocationAndSearch] (script.js 171-201) and the event loop *)

(** The synchronous part, run by a click.  [geolocation] tells whether
    [navigator.geolocation] exists. *)
Definition getLocationAndSearch (geolocation : bool) : stmt unit :=
  if negb geolocation then
    update (set_status Msg.not_supported)
  else
    update (set_status Msg.getting_location) ;;
    update (set_disabled true) ;;
    update (set_waiting AwaitPosition).     (* getCurrentPosition(...) *)

(** The success callback, lines 181-189, up to the first [await]. *)
Definition on_position (lat lon : R) : stmt unit :=
  initMap lat lon ;;
  fetchHotels_start lat lon ;;
  update (set_waiting (AwaitFetch lat lon)).

(** The rest of [fetchHotels] and the [finally] callback. *)
Definition on_fetch_settled (lat lon : R) (r : fetch_result) : stmt unit :=
  fetchHotels_resume lat lon r ;;
  update (set_disabled false) ;;
  update (set_waiting NoCallback).

(** The error callback, lines 190-195. *)
Definition on_position_error : stmt unit :=
  update (set_status Msg.location_denied) ;;
  update (set_disabled false) ;;
  update (set_waiting NoCallback).

(** What the browser can deliver to the page. *)
Inductive event : Type :=
| Click (geolocation : bool)
| PositionSuccess (lat lon : R)
| PositionError
| FetchSettled (r : fetch_result).

(** One turn of the event loop.  [None]: the event cannot happen in this
    state (a disabled button dispatches no click; a callback runs only
    for the request that registered it). *)
Definition step (p : page) (e : event) : option page :=
  match e, waiting p with
  | Click geolocation, _ =>
      if findBtn_disabled p then None
      else Some (page_after (getLocationAndSearch geolocation p))
  | PositionSuccess lat lon, AwaitPosition =>
      Some (page_after (on_position lat lon p))
  | PositionError, AwaitPosition =>
      Some (page_after (on_position_error p))
  | FetchSettled r, AwaitFetch lat lon =>
      Some (page_after (on_fetch_settled lat lon r p))
  | _, _ => None
  end.

Fixpoint run (p : page) (es : list event) : option page :=
  match es with
  | [] => Some p
  | e :: es' =>
      match step p e with
      | Some p' => run p' es'
      | None => None
      end
  end.

(** The page once the [DOMContentLoaded] handler has run (lines 203-208):
    the button is enabled, nothing is on the map. *)
Definition initial : page :=
  {| status := Msg.waiting_for_search;
     findBtn_disabled := false;
     hotelsList := [];
     map := None; userMarker := None; hotelsLayer := None;
     waiting := NoCallback;
     requests := [] |}.

Definition reachable (p : page) : Prop :=
  exists es, run initial es = Some p.

(** The phases of a search, read off the page. *)
Inductive phase : Type := Idle | AcquiringLocation | Searching.

Definition phase_of (p : page) : phase :=
  match waiting p with
  | NoCallback => Idle
  | AwaitPosition => AcquiringLocation
  | AwaitFetch _ _ => Searching
  end.

(* ================================================================= *)
(** ** Notions used in the statements *)

Definition elements_or_empty (elements : option (list element)) : list element :=
  match elements with
  | Some els => els
  | None => []
  end.

(** Following the spec's words ("a point feature uses its own lat/lon; an
    area feature uses its precomputed center point if present"): the
    element carries a coordinate, as the latitude and longitude of a node
    or as a centre with latitude and longitude. *)
Definition has_coordinate (el : element) : bool :=
  (match el_type el with
   | Some t => String.eqb t "node"
   | None => false
   end
   && match el_lat el, el_lon el with
      | Some _, Some _ => true
      | _, _ => false
      end)
  || match el_center el with
     | Some (LatLon (Some _) (Some _)) => true
     | _ => false
     end.

(** The loop as a map over the elements it keeps. *)
Fixpoint candidates (lat lon : R) (els : list element) : list hotel :=
  match els with
  | [] => []
  | el :: els' =>
      match parse_element lat lon el with
      | Some h => h :: candidates lat lon els'
      | None => candidates lat lon els'
      end
  end.

(** The layer after [plotHotelsOnMap]: one marker per hotel when the layer
    exists, still no layer otherwise. *)
Definition plotted (hotels : list hotel) (p : page) : page :=
  match hotelsLayer p with
  | Some _ => set_hotelsLayer (Some (List.map marker_of hotels)) p
  | None => p
  end.

(** The request failed: transport error or a status outside 200-299. *)
Definition network_failure (r : fetch_result) : bool :=
  match r with
  | FetchRejected => true
  | FetchResponse res => negb (res_ok res)
  end.

Definition error_page (p : page) : page :=
  set_hotelsList [] (set_status Msg.server_error p).

Definition no_results_page (p : page) : page :=
  set_hotelsList [] (set_status Msg.no_hotels p).

Definition rendered_page (results : list hotel) (p : page) : page :=
  set_status
    (Msg.found (List.length (sort_results results))
               (List.length (top_of results)))
    (plotted (top_of results)
       (set_hotelsList (List.map card_of (top_of results)) p)).

(** The invariant of the event loop: the button is disabled exactly while
    a callback is outstanding, and while the request is in flight the
    marker layer is empty. *)
Definition inv (p : page) : Prop :=
  (findBtn_disabled p = true <-> waiting p <> NoCallback) /\
  (forall lat lon, waiting p = AwaitFetch lat lon -> hotelsLayer p = Some []).

(* ================================================================= *)
(** ** Sample responses and pages *)

(** A hotel standing on the equator, as the service reports it. *)
Definition equator_node : element :=
  {| el_type := Some "node"%string;
     el_lat := Some 0;
     el_lon := Some 5;
     el_center := None;
     el_tags := Some [("name"%string, "Equator Inn"%string)] |}.

(** A hotel standing on the prime meridian. *)
Definition meridian_node : element :=
  {| el_type := Some "node"%string;
     el_lat := Some 51;
     el_lon := Some 0;
     el_center := None;
     el_tags := Some [("name"%string, "Meridian Lodge"%string)] |}.

(** A node with no longitude and a centre at (48, 16). *)
Definition node_with_center : element :=
  {| el_type := Some "node"%string;
     el_lat := Some 48;
     el_lon := None;
     el_center := Some (LatLon (Some 48) (Some 16));
     el_tags := None |}.

(** The three nodes of the scenario at the origin. *)
Definition node_A : element :=
  {| el_type := Some "node"%string; el_lat := Some 0; el_lon := Some 0;
     el_center := None; el_tags := Some [("name"%string, "A"%string)] |}.

Definition node_unnamed : element :=
  {| el_type := Some "node"%string; el_lat := Some 0; el_lon := Some 1;
     el_center := None; el_tags := None |}.

Definition node_C : element :=
  {| el_type := Some "node"%string; el_lat := Some 1; el_lon := Some 0;
     el_center := None; el_tags := Some [("name"%string, "C"%string)] |}.

(** The response of the scenario: the three nodes, in this order. *)
Definition scenario_elements : list element := [node_A; node_unnamed; node_C].

(** A node whose name tag is the empty string. *)
Definition blank_name_node : element :=
  {| el_type := Some "node"%string;
     el_lat := Some 1;
     el_lon := Some 1;
     el_center := None;
     el_tags := Some [("name"%string, ""%string)] |}.

(** A named node away from the equator and the prime meridian. *)
Definition named_node : element :=
  {| el_type := Some "node"%string;
     el_lat := Some 48;
     el_lon := Some 16;
     el_center := None;
     el_tags := Some [("tourism"%string, "hotel"%string);
                      ("name"%string, "Hotel Sacher"%string)] |}.

Definition named_hotel (lat lon : R) : hotel :=
  result_of lat lon named_node 48 16.

(** A page whose request for (lat, lon) is in flight. *)
Definition searching_page (lat lon : R) : page :=
  {| status := Msg.searching;
     findBtn_disabled := true;
     hotelsList := [];
     map := Some (lat, lon);
     userMarker := Some (lat, lon);
     hotelsLayer := Some [];
     waiting := AwaitFetch lat lon;
     requests := [Query radiusMeters lat lon] |}.

(** The page after the first click, with the position request pending. *)
Definition acquiring_page : page :=
  {| status := Msg.getting_location;
     findBtn_disabled := true;
     hotelsList := [];
     map := None; userMarker := None; hotelsLayer := None;
     waiting := AwaitPosition;
     requests := [] |}.

(** The request came back with a success status and a body in which no
    element has a resolvable coordinate. *)
Definition zero_results (lat lon : R) (r : fetch_result) : Prop :=
  exists res elements,
    r = FetchResponse res /\ res_ok res = true /\
    res_body res = BodyJson elements /\ parse lat lon elements = [].

(** The page when a first search has shown one hotel and the button has
    been clicked again: the marker of the first search is on the map. *)
Definition second_search_page : page :=
  {| status := Msg.getting_location;
     findBtn_disabled := true;
     hotelsList := [card_of (named_hotel 48 16)];
     map := Some (48, 16);
     userMarker := Some (48, 16);
     hotelsLayer := Some [marker_of (named_hotel 48 16)];
     waiting := AwaitPosition;
     requests := [Query radiusMeters 48 16] |}.

(* ================================================================= *)
(** ** The [DOMContentLoaded] handler (script.js 3-12, 203-208)

    The four arguments tell whether [findBtn], [status], [hotelsList] and
    [map] were found in the document.  [None]: the handler returned early
    and registered no listener. *)
Definition DOMContentLoaded
           (has_findBtn has_status has_hotelsList has_map : bool)
  : option page :=
  if negb has_findBtn || negb has_status || negb has_hotelsList
     || negb has_map
  then None
  else Some initial.

(* ================================================================= *)
(** ** Notions used in the further properties *)

(** An element with its own [lat] and [lon] taken away. *)
Definition without_own_coords (el : element) : element :=
  {| el_type := el_type el;
     el_lat := None;
     el_lon := None;
     el_center := el_center el;
     el_tags := el_tags el |}.

(** What a card and a marker show of a hotel: name, distance, place. *)
Definition card_view (c : card) : string * R * (R * R) :=
  (card_name c, card_distance c, card_query c).

Definition marker_view (m : marker) : string * R * (R * R) :=
  (mk_popup_name m, mk_popup_distance m, mk_latlng m).

Definition list_view (p : page) : list (string * R * (R * R)) :=
  List.map card_view (hotelsList p).

Definition map_view (p : page) : list (string * R * (R * R)) :=
  match hotelsLayer p with
  | Some ms => List.map marker_view ms
  | None => []
  end.

(** A request is in flight. *)
Definition is_searching (p : page) : bool :=
  match waiting p with
  | AwaitFetch _ _ => true
  | _ => false
  end.

Definition in_flight (p : page) : nat := if is_searching p then 1 else 0.

(** Position fixes and settled requests in a run of events. *)
Fixpoint count_positions (es : list event) : nat :=
  match es with
  | [] => 0
  | PositionSuccess _ _ :: es' => S (count_positions es')
  | _ :: es' => count_positions es'
  end.

Fixpoint count_settled (es : list event) : nat :=
  match es with
  | [] => 0
  | FetchSettled _ :: es' => S (count_settled es')
  | _ :: es' => count_settled es'
  end.

(** The status texts a finished or not yet started search can leave. *)
Definition terminal_status (s : string) : Prop :=
  s = Msg.waiting_for_search \/ s = Msg.not_supported \/
  s = Msg.location_denied \/ s = Msg.no_hotels \/ s = Msg.server_error \/
  exists n, (1 <= n)%nat /\ s = Msg.found n (Nat.min 6 n).

(** The event belongs to the phase the page is in. *)
Definition expected (p : page) (e : event) : Prop :=
  match e with
  | Click _ => phase_of p = Idle
  | PositionSuccess _ _ => phase_of p = AcquiringLocation
  | PositionError => phase_of p = AcquiringLocation
  | FetchSettled _ => phase_of p = Searching
  end.

(** Invariants of the event loop beyond [inv]. *)
Definition inv_sync (p : page) : Prop :=
  is_searching p = false -> list_view p = map_view p.

Definition inv_distances (p : page) : Prop :=
  is_searching p = false ->
  forall c, In c (hotelsList p) ->
    exists ulat ulon,
      userMarker p = Some (ulat, ulon) /\
      card_distance c =
      distanceKm ulat ulon (fst (card_query c)) (snd (card_query c)).

Definition inv_capped (p : page) : Prop :=
  (List.length (hotelsList p) <= 6)%nat /\
  (List.length (map_view p) <= 6)%nat.

Definition inv_map (p : page) : Prop :=
  map p = userMarker p /\
  match map p with
  | Some (la, lo) =>
      (exists ms, hotelsLayer p = Some ms) /\
      (exists rs, requests p = rs ++ [Query radiusMeters la lo])
  | None => hotelsLayer p = None /\ requests p = []
  end /\
  (forall lat lon, waiting p = AwaitFetch lat lon -> map p = Some (lat, lon)).

Definition inv_status (p : page) : Prop :=
  match waiting p with
  | NoCallback => terminal_status (status p)
  | AwaitPosition => status p = Msg.getting_location
  | AwaitFetch _ _ => status p = Msg.searching
  end.

(** All invariants together. *)
Definition inv_all (p : page) : Prop :=
  inv p /\ inv_sync p /\ inv_capped p /\ inv_map p /\ inv_distances p /\
  inv_status p.

(** The page when a first search has shown one hotel. *)
Definition first_search_page : page :=
  {| status := Msg.found 1 1;
     findBtn_disabled := false;
     hotelsList := [card_of (named_hotel 48 16)];
     map := Some (48, 16);
     userMarker := Some (48, 16);
     hotelsLayer := Some [marker_of (named_hotel 48 16)];
     waiting := NoCallback;
     requests := [Query radiusMeters 48 16] |}.

(* ================================================================= *)
(** * Properties *)

(** ** Tests on reals *)

Lemma truthy_num_true (x : R) : JS.truthy_num x = true <-> x <> 0.
Proof.
  unfold JS.truthy_num. destruct (Req_dec_T x 0); split; intro H;
    try discriminate; try reflexivity; try assumption.
  contradiction.
Qed.

Lemma truthy_num_false (x : R) : JS.truthy_num x = false <-> x = 0.
Proof.
  unfold JS.truthy_num. destruct (Req_dec_T x 0); split; intro H;
    try discriminate; try reflexivity; try assumption.
  contradiction.
Qed.

Lemma truthy_num_0 : JS.truthy_num 0 = false.
Proof. apply truthy_num_false. reflexivity. Qed.

(* ----------------------------------------------------------------- *)
(** ** The sort, for a comparator that subtracts keys *)

Section SortByKey.
Context {A : Type} (key : A -> R).

Let cmp (a b : A) : R := key a - key b.

Lemma insert_perm (x : A) (l : list A) :
  Permutation (JS.insert cmp x l) (x :: l).
Proof.
  induction l as [|y l IH]; simpl.
  - apply Permutation_refl.
  - destruct (Rle_dec (cmp x y) 0).
    + apply Permutation_refl.
    + apply perm_trans with (y :: x :: l).
      * apply perm_skip. exact IH.
      * apply perm_swap.
Qed.

Lemma sort_perm (l : list A) : Permutation (JS.sort cmp l) l.
Proof.
  induction l as [|x l IH]; simpl.
  - apply perm_nil.
  - apply perm_trans with (x :: JS.sort cmp l).
    + apply insert_perm.
    + apply perm_skip. exact IH.
Qed.

Lemma sort_length (l : list A) :
  List.length (JS.sort cmp l) = List.length l.
Proof. apply Permutation_length, sort_perm. Qed.
End SortByKey.

(* ----------------------------------------------------------------- *)
(** ** The parsing loop *)

Lemma parse_loop_candidates (lat lon : R) (els : list element) :
  forall results,
    parse_loop lat lon els results = results ++ candidates lat lon els.
Proof.
  induction els as [|el els IH]; intro results; simpl.
  - rewrite app_nil_r. reflexivity.
  - destruct (parse_element lat lon el) as [h|].
    + rewrite IH, <- app_assoc. reflexivity.
    + apply IH.
Qed.

Lemma parse_candidates (lat lon : R) (elements : option (list element)) :
  parse lat lon elements = candidates lat lon (elements_or_empty elements).
Proof.
  unfold parse. fold (elements_or_empty elements).
  rewrite parse_loop_candidates. reflexivity.
Qed.

(** Every candidate comes from an element the loop kept. *)
Lemma candidates_in (lat lon : R) (els : list element) (h : hotel) :
  In h (candidates lat lon els) <->
  exists el, In el els /\ parse_element lat lon el = Some h.
Proof.
  induction els as [|el els IH]; simpl.
  - split; [contradiction | intros [el [[] _]]].
  - destruct (parse_element lat lon el) as [h'|] eqn:E; simpl; rewrite IH; split.
    + intros [->|[el' [Hin Hp]]].
      * exists el. split; [left; reflexivity | exact E].
      * exists el'. split; [right; exact Hin | exact Hp].
    + intros [el' [[->|Hin] Hp]].
      * left. congruence.
      * right. exists el'. split; assumption.
    + intros [el' [Hin Hp]]. exists el'. split; [right; exact Hin | exact Hp].
    + intros [el' [[->|Hin] Hp]]; [congruence|].
      exists el'. split; assumption.
Qed.

(* ----------------------------------------------------------------- *)
(** ** Rendering *)

Lemma append_cards_eq (hotels : list hotel) :
  forall p,
    append_cards hotels p =
    Normal tt (set_hotelsList (hotelsList p ++ List.map card_of hotels) p).
Proof.
  induction hotels as [|h hotels IH]; intro p.
  - destruct p; unfold set_hotelsList; simpl. rewrite app_nil_r. reflexivity.
  - simpl append_cards. unfold bind, update. rewrite IH.
    destruct p; unfold set_hotelsList; simpl. rewrite <- app_assoc. reflexivity.
Qed.

Lemma renderHotels_eq (hotels : list hotel) (p : page) :
  renderHotels hotels p = Normal tt (set_hotelsList (List.map card_of hotels) p).
Proof.
  unfold renderHotels, bind, update. rewrite append_cards_eq.
  destruct p; reflexivity.
Qed.

Lemma add_markers_eq (hotels : list hotel) :
  forall p ms,
    hotelsLayer p = Some ms ->
    add_markers hotels p =
    Normal tt (set_hotelsLayer (Some (ms ++ List.map marker_of hotels)) p).
Proof.
  induction hotels as [|h hotels IH]; intros p ms Hl.
  - destruct p; unfold set_hotelsLayer; simpl in *. rewrite app_nil_r.
    subst. reflexivity.
  - simpl add_markers. unfold bind, update. rewrite Hl.
    rewrite (IH _ (ms ++ [marker_of h])) by reflexivity.
    destruct p; unfold set_hotelsLayer; simpl. rewrite <- app_assoc.
    reflexivity.
Qed.

Lemma plotHotelsOnMap_eq (hotels : list hotel) (p : page) :
  plotHotelsOnMap hotels p = Normal tt (plotted hotels p).
Proof.
  unfold plotHotelsOnMap, plotted.
  destruct (hotelsLayer p) as [ms|] eqn:Hl; [|reflexivity].
  unfold bind, update.
  rewrite (add_markers_eq hotels _ []) by reflexivity.
  destruct p; reflexivity.
Qed.

(* ----------------------------------------------------------------- *)
(** ** The second half of [fetchHotels], case by case *)

Lemma resume_failure (lat lon : R) (r : fetch_result) (p : page) :
  network_failure r = true ->
  fetchHotels_resume lat lon r p = Normal tt (error_page p).
Proof.
  intro H. unfold fetchHotels_resume, try_catch, bind.
  destruct r as [|res]; simpl in *.
  - reflexivity.
  - rewrite H. reflexivity.
Qed.

Lemma resume_invalid_body (lat lon : R) (res : response) (p : page) :
  res_body res = BodyInvalid ->
  fetchHotels_resume lat lon (FetchResponse res) p = Normal tt (error_page p).
Proof.
  intro H. unfold fetchHotels_resume, try_catch, bind. simpl.
  destruct (res_ok res); simpl; [rewrite H|]; reflexivity.
Qed.

Lemma resume_malformed (lat lon : R) (res : response) (p : page)
      (m : malformed) :
  res_ok res = true ->
  res_body res = BodyMalformed m ->
  fetchHotels_resume lat lon (FetchResponse res) p = Normal tt (error_page p).
Proof.
  intros Hok Hb.
  unfold fetchHotels_resume, try_catch, bind, await_fetch, ret.
  rewrite Hok, Hb. cbn [negb res_json]. unfold ret. cbv beta iota.
  destruct m; reflexivity.
Qed.

Lemma resume_parsed (lat lon : R) (res : response) (p : page)
      (elements : option (list element)) :
  res_ok res = true ->
  res_body res = BodyJson elements ->
  fetchHotels_resume lat lon (FetchResponse res) p =
  Normal tt
    (match parse lat lon elements with
     | [] => no_results_page p
     | _ :: _ => rendered_page (parse lat lon elements) p
     end).
Proof.
  intros Hok Hb.
  unfold fetchHotels_resume, try_catch, bind, await_fetch, ret.
  rewrite Hok, Hb. cbn [negb res_json]. unfold ret. cbv beta iota.
  cbn [read_results]. unfold ret. cbv beta iota.
  destruct (parse lat lon elements) as [|h results] eqn:E.
  - reflexivity.
  - change (List.length (h :: results) =? 0)%nat with false. cbv beta iota.
    rewrite renderHotels_eq, plotHotelsOnMap_eq. reflexivity.
Qed.

(** [fetchHotels] never lets an exception escape. *)
Lemma resume_normal (lat lon : R) (r : fetch_result) (p : page) :
  fetchHotels_resume lat lon r p =
  Normal tt (page_after (fetchHotels_resume lat lon r p)).
Proof.
  destruct r as [|res].
  - rewrite resume_failure by reflexivity. reflexivity.
  - destruct (res_ok res) eqn:Hok.
    + destruct (res_body res) as [|elements|m] eqn:Hb.
      * rewrite resume_invalid_body by assumption. reflexivity.
      * rewrite (resume_parsed _ _ _ _ elements) by assumption. reflexivity.
      * rewrite (resume_malformed _ _ _ _ m) by assumption. reflexivity.
    + rewrite resume_failure by (simpl; rewrite Hok; reflexivity).
      reflexivity.
Qed.

(** What the second half may change: the status, the list and the layer's
    markers; and a missing layer stays missing. *)
Lemma resume_frame (lat lon : R) (r : fetch_result) (p : page) :
  let p' := page_after (fetchHotels_resume lat lon r p) in
  findBtn_disabled p' = findBtn_disabled p /\
  waiting p' = waiting p /\
  requests p' = requests p /\
  map p' = map p /\
  userMarker p' = userMarker p.
Proof.
  intro p'. subst p'.
  destruct r as [|res].
  - rewrite resume_failure by reflexivity. simpl. tauto.
  - destruct (res_ok res) eqn:Hok.
    + destruct (res_body res) as [|elements|m] eqn:Hb.
      * rewrite resume_invalid_body by assumption. simpl. tauto.
      * rewrite (resume_parsed _ _ _ _ elements) by assumption.
        destruct (parse lat lon elements); simpl; [tauto|].
        unfold rendered_page, plotted. simpl.
        destruct (hotelsLayer p); simpl; tauto.
      * rewrite (resume_malformed _ _ _ _ m) by assumption. simpl. tauto.
    + rewrite resume_failure by (simpl; rewrite Hok; reflexivity).
      simpl. tauto.
Qed.

(* ----------------------------------------------------------------- *)
(** ** The callbacks and the event loop *)

Lemma on_position_eq (lat lon : R) (p : page) :
  on_position lat lon p =
  Normal tt
    {| status := Msg.searching;
       findBtn_disabled := findBtn_disabled p;
       hotelsList := hotelsList p;
       map := Some (lat, lon);
       userMarker := Some (lat, lon);
       hotelsLayer := Some [];
       waiting := AwaitFetch lat lon;
       requests := requests p ++ [Query radiusMeters lat lon] |}.
Proof.
  destruct p as [st dis hl m um layer w rq].
  destruct m, um, layer; reflexivity.
Qed.

(** [initMap] leaves an empty marker layer and issues no request. *)
Lemma initMap_layer (lat lon : R) (p : page) :
  hotelsLayer (page_after (initMap lat lon p)) = Some [] /\
  requests (page_after (initMap lat lon p)) = requests p.
Proof.
  destruct p as [st dis hl m um layer w rq].
  destruct m, um, layer; split; reflexivity.
Qed.

Lemma on_fetch_settled_eq (lat lon : R) (r : fetch_result) (p : page) :
  on_fetch_settled lat lon r p =
  Normal tt
    (set_waiting NoCallback
       (set_disabled false (page_after (fetchHotels_resume lat lon r p)))).
Proof.
  unfold on_fetch_settled, bind, update.
  destruct (fetchHotels_resume lat lon r p) as [[] p'|e p'] eqn:E.
  - reflexivity.
  - rewrite resume_normal in E. discriminate.
Qed.

Lemma inv_initial : inv initial.
Proof.
  split; simpl.
  - split; [discriminate | intro H; contradiction H; reflexivity].
  - discriminate.
Qed.

Lemma inv_idle (p : page) :
  waiting p = NoCallback -> findBtn_disabled p = false -> inv p.
Proof.
  intros Hw Hd. split.
  - rewrite Hw, Hd. split; [discriminate | intro H; contradiction H; reflexivity].
  - intros lat lon H. rewrite Hw in H. discriminate.
Qed.

Lemma step_inv (p p' : page) (e : event) :
  inv p -> step p e = Some p' -> inv p'.
Proof.
  intros [Hdis Hlayer] Hstep. unfold step in Hstep.
  destruct e as [geo|lat lon| |r].
  - (* click *)
    assert (Hclick :
      (if findBtn_disabled p then None
       else Some (page_after (getLocationAndSearch geo p))) = Some p')
      by (destruct (waiting p); exact Hstep).
    destruct (findBtn_disabled p) eqn:Hd; [discriminate|].
    injection Hclick as <-.
    assert (Hw : waiting p = NoCallback).
    { destruct (waiting p); try reflexivity;
        (assert (false = true) by (apply Hdis; discriminate); discriminate). }
    destruct geo; simpl.
    + split; simpl.
      * split; [discriminate | reflexivity].
      * discriminate.
    + apply inv_idle; simpl; assumption.
  - (* position *)
    destruct (waiting p) eqn:Hw; try discriminate.
    injection Hstep as <-. rewrite on_position_eq. simpl.
    split; simpl.
    + split; [discriminate | intros _; apply Hdis; discriminate].
    + reflexivity.
  - (* position error *)
    destruct (waiting p) eqn:Hw; try discriminate.
    injection Hstep as <-. apply inv_idle; reflexivity.
  - (* fetch settled *)
    destruct (waiting p) as [| |lat lon] eqn:Hw; try discriminate.
    injection Hstep as <-. rewrite on_fetch_settled_eq.
    apply inv_idle; reflexivity.
Qed.

Lemma run_inv (es : list event) :
  forall p p', inv p -> run p es = Some p' -> inv p'.
Proof.
  induction es as [|e es IH]; intros p p' Hi Hr; simpl in Hr.
  - injection Hr as <-. exact Hi.
  - destruct (step p e) as [p1|] eqn:Hs; [|discriminate].
    apply (IH p1); [eapply step_inv; eassumption | exact Hr].
Qed.

Lemma reachable_inv (p : page) : reachable p -> inv p.
Proof.
  intros [es Hr]. exact (run_inv es initial p inv_initial Hr).
Qed.

Lemma reachable_step (p p' : page) (e : event) :
  reachable p -> step p e = Some p' -> reachable p'.
Proof.
  intros [es Hr] Hs. exists (es ++ [e]).
  revert Hr. generalize initial. induction es as [|e0 es IH]; intros q Hr; simpl in *.
  - injection Hr as ->. rewrite Hs. reflexivity.
  - destruct (step q e0) as [q1|]; [|discriminate]. apply IH. exact Hr.
Qed.

Lemma phase_busy (p : page) :
  waiting p <> NoCallback <->
  phase_of p = AcquiringLocation \/ phase_of p = Searching.
Proof.
  unfold phase_of. destruct (waiting p); split; intro H.
  - contradiction H. reflexivity.
  - destruct H; discriminate.
  - left. reflexivity.
  - discriminate.
  - right. reflexivity.
  - discriminate.
Qed.

(* ================================================================= *)
(** * Coordinate resolution *)

(** C2: the policy says a point feature uses its own lat/lon.  The node
    [equator_node] has both, yet the loop takes latitude 0 for a missing
    value and skips it: whatever the user's position, the search on a
    response holding this node alone ends with the no-results status and
    an empty list. *)
Theorem node_on_equator_is_skipped :
  el_type equator_node = Some "node"%string /\
  el_lat equator_node = Some 0 /\
  el_lon equator_node = Some 5 /\
  resolve_coord equator_node = None /\
  forall lat lon http p,
    let p' :=
      page_after
        (fetchHotels_resume lat lon
           (FetchResponse
              (Response true http (BodyJson (Some [equator_node])))) p) in
    parse lat lon (Some [equator_node]) = [] /\
    status p' = Msg.no_hotels /\
    hotelsList p' = [].
Proof.
  assert (Hr : resolve_coord equator_node = None).
  { unfold resolve_coord, node_with_coords, center_with_coords. simpl.
    rewrite truthy_num_0. reflexivity. }
  repeat split; try reflexivity; try exact Hr.
  - unfold parse, parse_loop, parse_element. rewrite Hr. reflexivity.
  - rewrite (resume_parsed lat lon _ p (Some [equator_node])) by reflexivity.
    unfold parse, parse_loop, parse_element. rewrite Hr. reflexivity.
  - rewrite (resume_parsed lat lon _ p (Some [equator_node])) by reflexivity.
    unfold parse, parse_loop, parse_element. rewrite Hr. reflexivity.
Qed.

(** C9: a node whose own latitude or longitude is absent or 0 is handed
    to the centre branch: with a centre whose latitude and longitude are
    both present and not 0 the loop takes the centre; with any other
    centre, or none, the loop skips the element and [results] is left as
    it was. *)
Theorem node_without_own_coords_falls_through (el : element) :
  el_type el = Some "node"%string ->
  (el_lat el = None \/ el_lat el = Some 0 \/
   el_lon el = None \/ el_lon el = Some 0) ->
  (forall la lo,
      el_center el = Some (LatLon (Some la) (Some lo)) ->
      la <> 0 -> lo <> 0 ->
      resolve_coord el = Some (la, lo)) /\
  ((forall la lo,
       el_center el = Some (LatLon (Some la) (Some lo)) -> la = 0 \/ lo = 0) ->
   resolve_coord el = None /\
   forall lat lon els results,
     parse_loop lat lon (el :: els) results = parse_loop lat lon els results).
Proof.
  intros Hty Hown.
  assert (Hnode : node_with_coords el = false).
  { unfold node_with_coords. rewrite Hty.
    destruct Hown as [H|[H|[H|H]]]; rewrite H; simpl;
      rewrite ?truthy_num_0, ?andb_false_r; reflexivity. }
  unfold resolve_coord. rewrite Hnode. split.
  - intros la lo Hc Hla Hlo. unfold center_with_coords. rewrite Hc. simpl.
    apply truthy_num_true in Hla, Hlo. rewrite Hla, Hlo. reflexivity.
  - intro Hbad.
    assert (Hcen : center_with_coords el = false).
    { unfold center_with_coords.
      destruct (el_center el) as [[[la|] [lo|]]|]; simpl;
        rewrite ?andb_false_r; try reflexivity.
      destruct (Hbad la lo eq_refl) as [->| ->];
        rewrite truthy_num_0, ?andb_false_r; reflexivity. }
    rewrite Hcen. split; [reflexivity|].
    intros lat lon els results. simpl. unfold parse_element, resolve_coord.
    rewrite Hnode, Hcen. reflexivity.
Qed.

(** A node without longitude takes the coordinate of its centre. *)
Lemma node_without_own_coords_witness :
  el_type node_with_center = Some "node"%string /\
  el_lon node_with_center = None /\
  resolve_coord node_with_center = Some (48, 16).
Proof.
  split; [reflexivity|]. split; [reflexivity|].
  apply (node_without_own_coords_falls_through node_with_center).
  - reflexivity.
  - right. right. left. reflexivity.
  - reflexivity.
  - lra.
  - lra.
Defined.

(* ================================================================= *)
(** * Names *)

Lemma resolve_coord_own (el : element) (la lo : R) :
  el_type el = Some "node"%string ->
  el_lat el = Some la -> el_lon el = Some lo ->
  la <> 0 -> lo <> 0 ->
  resolve_coord el = Some (la, lo).
Proof.
  intros Hty Hla Hlo Ha Ho. unfold resolve_coord, node_with_coords.
  rewrite Hty, Hla, Hlo. simpl.
  apply truthy_num_true in Ha, Ho. rewrite Ha, Ho. reflexivity.
Qed.

Lemma parse_element_name (lat lon : R) (el : element) (h : hotel) :
  parse_element lat lon el = Some h -> h_name h = resolve_name el.
Proof.
  unfold parse_element. destruct (resolve_coord el) as [[hLat hLon]|].
  - intro H. injection H as <-. reflexivity.
  - discriminate.
Qed.

(** C8, as the spec has it, fails for a name tag that is present and
    empty: the candidate does not take the tag's value, it takes the
    placeholder. *)
Lemma empty_name_tag_counterexample :
  el_tags blank_name_node = Some [("name"%string, ""%string)] /\
  tag_get "name" [("name"%string, ""%string)] = Some ""%string /\
  exists h,
    parse_element 0 0 blank_name_node = Some h /\
    h_name h = unnamed_hotel /\
    h_name h <> ""%string.
Proof.
  split; [reflexivity|]. split; [reflexivity|].
  assert (Hr : resolve_coord blank_name_node = Some (1, 1)).
  { apply resolve_coord_own; try reflexivity; lra. }
  unfold parse_element. rewrite Hr. eexists. split; [reflexivity|].
  split; [reflexivity | discriminate].
Qed.

(** C8, amended: a candidate whose feature has no tags, no name tag, or
    an empty name tag gets the placeholder "Unnamed hotel
    (OpenStreetMap)"; a candidate with a non-empty name tag gets the
    tag's value; the card and the popup show that name. *)
Theorem display_name_policy (lat lon : R) (el : element) (h : hotel) :
  parse_element lat lon el = Some h ->
  (el_tags el = None -> h_name h = unnamed_hotel) /\
  (forall tags,
      el_tags el = Some tags -> tag_get "name" tags = None ->
      h_name h = unnamed_hotel) /\
  (forall tags,
      el_tags el = Some tags -> tag_get "name" tags = Some ""%string ->
      h_name h = unnamed_hotel) /\
  (forall tags n,
      el_tags el = Some tags -> tag_get "name" tags = Some n ->
      n <> ""%string ->
      h_name h = n) /\
  card_name (card_of h) = h_name h /\
  mk_popup_name (marker_of h) = h_name h.
Proof.
  intro Hp. apply parse_element_name in Hp.
  split; [|split; [|split; [|split; [|split; reflexivity]]]];
    rewrite Hp; unfold resolve_name.
  - intros ->. reflexivity.
  - intros tags -> ->. reflexivity.
  - intros tags -> ->. reflexivity.
  - intros tags n -> -> Hn. unfold JS.truthy_str.
    destruct (String.eqb_spec n EmptyString) as [->|_].
    + contradiction Hn. reflexivity.
    + reflexivity.
Qed.

Lemma parse_named_node (lat lon : R) :
  parse_element lat lon named_node = Some (named_hotel lat lon).
Proof.
  unfold parse_element.
  rewrite (resolve_coord_own named_node 48 16); try reflexivity; lra.
Qed.

(** A node tagged with a name is shown under that name. *)
Lemma display_name_witness :
  parse_element 0 0 named_node = Some (named_hotel 0 0) /\
  h_name (named_hotel 0 0) = "Hotel Sacher"%string.
Proof.
  split; [apply parse_named_node|].
  destruct (display_name_policy 0 0 named_node (named_hotel 0 0)
              (parse_named_node 0 0)) as [_ [_ [_ [Hnamed _]]]].
  apply (Hnamed [("tourism"%string, "hotel"%string);
                 ("name"%string, "Hotel Sacher"%string)]).
  - reflexivity.
  - reflexivity.
  - discriminate.
Defined.

(* ================================================================= *)
(** * Elements with a coordinate that the loop skips *)

Lemma meridian_node_skipped : resolve_coord meridian_node = None.
Proof.
  unfold resolve_coord, node_with_coords, center_with_coords. simpl.
  rewrite truthy_num_0, andb_false_r. reflexivity.
Qed.

Lemma parse_meridian_and_named (lat lon : R) :
  parse lat lon (Some [meridian_node; named_node]) = [named_hotel lat lon].
Proof.
  rewrite parse_candidates. cbn [elements_or_empty candidates].
  rewrite parse_named_node. unfold parse_element.
  rewrite meridian_node_skipped. reflexivity.
Qed.

(** C1: the response holds two nodes that carry a latitude and a
    longitude, so two candidates have a coordinate and the ranked output
    should have min(6, 2) = 2 entries.  The loop takes the longitude 0
    of [meridian_node] for a missing value and skips it: wherever the
    user is, the ranked output has one entry, the list view one card,
    and the status counts one place. *)
Theorem ranked_output_misses_meridian_node (lat lon : R) :
  has_coordinate meridian_node = true /\
  has_coordinate named_node = true /\
  Nat.min 6 (List.length (filter has_coordinate [meridian_node; named_node]))
  = 2%nat /\
  top_of (parse lat lon (Some [meridian_node; named_node]))
  = [named_hotel lat lon] /\
  forall http p,
    let p' :=
      page_after
        (fetchHotels_resume lat lon
           (FetchResponse
              (Response true http
                 (BodyJson (Some [meridian_node; named_node])))) p) in
    hotelsList p' = [card_of (named_hotel lat lon)] /\
    status p' = "Found 1 places, showing closest 1."%string.
Proof.
  split; [reflexivity|]. split; [reflexivity|]. split; [reflexivity|].
  split.
  - rewrite parse_meridian_and_named. reflexivity.
  - intros http p.
    rewrite (resume_parsed lat lon _ p (Some [meridian_node; named_node]))
      by reflexivity.
    rewrite parse_meridian_and_named.
    unfold rendered_page, plotted. cbn [page_after hotelsLayer set_hotelsList].
    destruct (hotelsLayer p); split; reflexivity.
Qed.

(** C3: the three nodes of the scenario carry a latitude and a
    longitude, yet each has a 0 among them, which the loop takes for a
    missing value: for the user at (0, 0) nothing is parsed, nothing is
    ranked, and the search ends with the no-results status and an empty
    list view instead of the three entries. *)
Theorem scenario_origin_shows_nothing :
  forallb has_coordinate scenario_elements = true /\
  parse 0 0 (Some scenario_elements) = [] /\
  top_of (parse 0 0 (Some scenario_elements)) = [] /\
  forall http p,
    let p' :=
      page_after
        (fetchHotels_resume 0 0
           (FetchResponse
              (Response true http (BodyJson (Some scenario_elements)))) p) in
    status p' = Msg.no_hotels /\ hotelsList p' = [].
Proof.
  assert (Hp : parse 0 0 (Some scenario_elements) = []).
  { unfold parse, scenario_elements, parse_loop, parse_element,
      resolve_coord, node_with_coords, center_with_coords. simpl.
    rewrite truthy_num_0. simpl. rewrite ?andb_false_r. reflexivity. }
  split; [reflexivity|]. split; [exact Hp|]. split.
  - rewrite Hp. reflexivity.
  - intros http p.
    rewrite (resume_parsed 0 0 _ p (Some scenario_elements)) by reflexivity.
    rewrite Hp. split; reflexivity.
Qed.

(* ================================================================= *)
(** * Failures of the request *)

(** An element without a coordinate is one the loop skips. *)
Lemma no_coordinate_skipped (el : element) :
  has_coordinate el = false -> resolve_coord el = None.
Proof.
  unfold has_coordinate, resolve_coord, node_with_coords, center_with_coords.
  intro H. apply orb_false_elim in H. destruct H as [Hown Hcen].
  assert (Hnode :
    (match el_type el with
     | Some t => String.eqb t "node"
     | None => false
     end && JS.truthy_opt_num (el_lat el) && JS.truthy_opt_num (el_lon el))
    = false).
  { destruct (match el_type el with
              | Some t => String.eqb t "node"
              | None => false
              end); [|reflexivity].
    destruct (el_lat el) as [la|]; [|reflexivity].
    destruct (el_lon el) as [lo|]; [discriminate Hown|].
    simpl. apply andb_false_r. }
  rewrite Hnode.
  destruct (el_center el) as [[[la|] [lo|]]|]; try reflexivity;
    try (simpl; rewrite andb_false_r; reflexivity).
  discriminate Hcen.
Qed.

Lemma candidates_without_coordinate (lat lon : R) (els : list element) :
  forallb (fun el => negb (has_coordinate el)) els = true ->
  candidates lat lon els = [].
Proof.
  induction els as [|el els IH]; [reflexivity|]. simpl. intro H.
  apply andb_prop in H. destruct H as [Hel Hels].
  apply negb_true_iff in Hel. unfold parse_element.
  rewrite (no_coordinate_skipped el Hel). apply IH. exact Hels.
Qed.

(** C4, as the spec has it, fails: a success status with a body that does
    not parse ends in the network-error status, not in the no-results
    status. *)
Lemma malformed_body_counterexample :
  let p' :=
    page_after
      (fetchHotels_resume 0 0
         (FetchResponse (Response true 200 BodyInvalid)) initial) in
  status p' = Msg.server_error /\ status p' <> Msg.no_hotels.
Proof.
  rewrite resume_invalid_body by reflexivity.
  split; [reflexivity | discriminate].
Qed.

(** C4, amended: after a success status, a body that parses to a value
    whose element list is absent, empty, or holds only elements without
    a coordinate gives the no-results status, an empty list view and an
    untouched marker layer; a body that does not parse (malformed or
    empty text), and a body that parses to [null], to an [elements]
    value that cannot be iterated, or to a list with a [null] entry,
    gives the network-error status and an empty list view. *)
Theorem success_status_without_results
        (lat lon : R) (res : response) (p : page) :
  res_ok res = true ->
  let p' := page_after (fetchHotels_resume lat lon (FetchResponse res) p) in
  (forall elements,
      res_body res = BodyJson elements ->
      forallb (fun el => negb (has_coordinate el))
              (elements_or_empty elements) = true ->
      status p' = Msg.no_hotels /\ hotelsList p' = [] /\
      hotelsLayer p' = hotelsLayer p) /\
  (res_body res = BodyInvalid ->
   status p' = Msg.server_error /\ hotelsList p' = []) /\
  (forall m,
      res_body res = BodyMalformed m ->
      status p' = Msg.server_error /\ hotelsList p' = []).
Proof.
  intros Hok p'. subst p'. split; [|split].
  - intros elements Hb Hnone.
    rewrite (resume_parsed lat lon res p elements) by assumption.
    rewrite parse_candidates, (candidates_without_coordinate _ _ _ Hnone).
    repeat split.
  - intro Hb. rewrite resume_invalid_body by assumption. split; reflexivity.
  - intros m Hb. rewrite (resume_malformed lat lon res p m) by assumption.
    split; reflexivity.
Qed.

(** A list whose one element is an object without properties. *)
Lemma success_status_without_results_witness :
  let p' :=
    page_after
      (fetchHotels_resume 0 0
         (FetchResponse
            (Response true 200
               (BodyJson (Some [Element None None None None None]))))
         initial) in
  status p' = Msg.no_hotels /\ hotelsList p' = [] /\
  hotelsLayer p' = hotelsLayer initial.
Proof.
  destruct (success_status_without_results 0 0
              (Response true 200
                 (BodyJson (Some [Element None None None None None])))
              initial eq_refl)
    as [Hnone _].
  apply (Hnone (Some [Element None None None None None])); reflexivity.
Defined.

Lemma searching_page_reachable (lat lon : R) :
  run initial [Click true; PositionSuccess lat lon]
  = Some (searching_page lat lon).
Proof. reflexivity. Qed.

(** C7: when the request fails or comes back with a non-success status,
    [fetchHotels] completes normally (the exception is caught), the
    callback runs to its end, the status is the network-error message
    and the list view is empty. *)
Theorem network_failure_shows_error
        (p : page) (lat lon : R) (r : fetch_result) :
  waiting p = AwaitFetch lat lon ->
  network_failure r = true ->
  fetchHotels_resume lat lon r p = Normal tt (error_page p) /\
  exists p',
    step p (FetchSettled r) = Some p' /\
    status p' = Msg.server_error /\
    hotelsList p' = [] /\
    findBtn_disabled p' = false /\
    waiting p' = NoCallback.
Proof.
  intros Hw Hf. split.
  - apply resume_failure. exact Hf.
  - unfold step. rewrite Hw. eexists. split; [reflexivity|].
    rewrite on_fetch_settled_eq, resume_failure by exact Hf.
    repeat split.
Qed.

(** A gateway timeout while the request for (48, 16) is in flight. *)
Lemma network_failure_witness :
  exists p',
    step (searching_page 48 16)
         (FetchSettled (FetchResponse (Response false 504 BodyInvalid)))
    = Some p' /\
    status p' = Msg.server_error /\
    hotelsList p' = [] /\
    findBtn_disabled p' = false /\
    waiting p' = NoCallback.
Proof.
  apply (network_failure_shows_error (searching_page 48 16) 48 16
           (FetchResponse (Response false 504 BodyInvalid))).
  - reflexivity.
  - reflexivity.
Defined.

(* ================================================================= *)
(** * The search control *)

(** C6: on every page the event loop can reach, the button is disabled
    exactly in the phases [AcquiringLocation] and [Searching]; every
    transition that ends in [Idle] leaves it enabled, and the settling
    of the request always ends in [Idle]; when the position request
    fails, the page is [Idle] with the button enabled and the denial
    message, and no request has been added, neither by the error
    callback nor by the click before it. *)
Theorem search_control_enabled_outside_search (p : page) :
  reachable p ->
  (findBtn_disabled p = true <->
   phase_of p = AcquiringLocation \/ phase_of p = Searching) /\
  (forall e p',
      step p e = Some p' -> phase_of p' = Idle -> findBtn_disabled p' = false) /\
  (forall r p',
      step p (FetchSettled r) = Some p' ->
      phase_of p' = Idle /\ findBtn_disabled p' = false) /\
  (forall p',
      step p PositionError = Some p' ->
      phase_of p' = Idle /\ findBtn_disabled p' = false /\
      status p' = Msg.location_denied /\ requests p' = requests p) /\
  (forall geolocation p1 p2,
      step p (Click geolocation) = Some p1 ->
      step p1 PositionError = Some p2 ->
      findBtn_disabled p2 = false /\
      status p2 = Msg.location_denied /\ requests p2 = requests p).
Proof.
  intro Hr. pose proof (reachable_inv p Hr) as [Hdis _].
  split; [|split; [|split; [|split]]].
  - rewrite Hdis. apply phase_busy.
  - intros e p' Hs Hidle.
    pose proof (reachable_inv p' (reachable_step p p' e Hr Hs)) as [Hdis' _].
    destruct (findBtn_disabled p'); [|reflexivity].
    assert (Hb : waiting p' <> NoCallback) by (apply Hdis'; reflexivity).
    apply phase_busy in Hb. rewrite Hidle in Hb.
    destruct Hb; discriminate.
  - intros r p' Hs. unfold step in Hs.
    destruct (waiting p) as [| |lat lon]; try discriminate.
    injection Hs as <-. rewrite on_fetch_settled_eq. split; reflexivity.
  - intros p' Hs. unfold step in Hs.
    destruct (waiting p); try discriminate.
    injection Hs as <-. repeat split.
  - intros geo p1 p2 Hs1 Hs2.
    assert (Hclick :
      (if findBtn_disabled p then None
       else Some (page_after (getLocationAndSearch geo p))) = Some p1)
      by (unfold step in Hs1; destruct (waiting p); exact Hs1).
    destruct (findBtn_disabled p); [discriminate|].
    injection Hclick as <-.
    unfold step in Hs2.
    destruct (waiting (page_after (getLocationAndSearch geo p))) eqn:Hw;
      try discriminate.
    injection Hs2 as <-. destruct geo; repeat split.
Qed.

Lemma acquiring_page_reachable : reachable acquiring_page.
Proof. exists [Click true]. reflexivity. Qed.

(** The position request of the first search is refused. *)
Lemma search_control_witness :
  reachable acquiring_page /\
  forall p',
    step acquiring_page PositionError = Some p' ->
    phase_of p' = Idle /\ findBtn_disabled p' = false /\
    status p' = Msg.location_denied /\ requests p' = [].
Proof.
  split; [exact acquiring_page_reachable|].
  destruct (search_control_enabled_outside_search acquiring_page
              acquiring_page_reachable) as [_ [_ [_ [Hdenied _]]]].
  exact Hdenied.
Defined.

(* ================================================================= *)
(** * Markers of an earlier search *)

Lemma failed_search_keeps_layer (lat lon : R) (r : fetch_result) (p : page) :
  network_failure r = true \/ zero_results lat lon r ->
  hotelsLayer (page_after (fetchHotels_resume lat lon r p)) = hotelsLayer p.
Proof.
  intros [Hf|[res [elements [-> [Hok [Hb Hp]]]]]].
  - rewrite resume_failure by exact Hf. reflexivity.
  - rewrite (resume_parsed lat lon res p elements) by assumption.
    rewrite Hp. reflexivity.
Qed.

(** C10: when the position arrives, [initMap] empties the marker layer
    while the list of requests is still what it was, and only then is the
    query added; so on every reachable page with a request in flight the
    layer holds no marker, and when that request ends in a network error
    or with zero results the layer still holds none. *)
Theorem marker_layer_cleared_before_query (p : page) :
  reachable p ->
  (forall lat lon p1,
      step p (PositionSuccess lat lon) = Some p1 ->
      let pm := page_after (initMap lat lon p) in
      hotelsLayer pm = Some [] /\ requests pm = requests p /\
      hotelsLayer p1 = Some [] /\
      requests p1 = requests p ++ [Query radiusMeters lat lon] /\
      waiting p1 = AwaitFetch lat lon) /\
  (forall lat lon,
      waiting p = AwaitFetch lat lon ->
      hotelsLayer p = Some [] /\
      forall r p2,
        step p (FetchSettled r) = Some p2 ->
        network_failure r = true \/ zero_results lat lon r ->
        hotelsLayer p2 = Some []).
Proof.
  intro Hr. pose proof (reachable_inv p Hr) as [_ Hlayer]. split.
  - intros lat lon p1 Hs pm. subst pm. unfold step in Hs.
    destruct (waiting p); try discriminate.
    injection Hs as <-. rewrite on_position_eq.
    destruct (initMap_layer lat lon p) as [Hl Hq].
    repeat split; assumption.
  - intros lat lon Hw. split; [exact (Hlayer lat lon Hw)|].
    intros r p2 Hs Hend. unfold step in Hs. rewrite Hw in Hs.
    injection Hs as <-. rewrite on_fetch_settled_eq. simpl.
    rewrite failed_search_keeps_layer by exact Hend.
    exact (Hlayer lat lon Hw).
Qed.

Lemma run_app (es1 es2 : list event) :
  forall p,
    run p (es1 ++ es2) =
    match run p es1 with
    | Some p' => run p' es2
    | None => None
    end.
Proof.
  induction es1 as [|e es1 IH]; intro p; simpl.
  - reflexivity.
  - destruct (step p e); [apply IH | reflexivity].
Qed.

Lemma second_search_page_reachable : reachable second_search_page.
Proof.
  exists ([Click true; PositionSuccess 48 16] ++
          [FetchSettled
             (FetchResponse (Response true 200 (BodyJson (Some [named_node]))));
           Click true]).
  rewrite run_app, searching_page_reachable.
  cbn [run step searching_page waiting].
  rewrite on_fetch_settled_eq.
  rewrite (resume_parsed 48 16 _ _ (Some [named_node])) by reflexivity.
  assert (Hp : parse 48 16 (Some [named_node]) = [named_hotel 48 16]).
  { rewrite parse_candidates. simpl. rewrite parse_named_node. reflexivity. }
  rewrite Hp. reflexivity.
Qed.

(** The second search starts with the marker of the first on the map. *)
Lemma marker_layer_witness :
  reachable second_search_page /\
  hotelsLayer second_search_page = Some [marker_of (named_hotel 48 16)] /\
  forall p1,
    step second_search_page (PositionSuccess 48 17) = Some p1 ->
    hotelsLayer p1 = Some [] /\
    requests p1 = [Query radiusMeters 48 16; Query radiusMeters 48 17].
Proof.
  split; [exact second_search_page_reachable|]. split; [reflexivity|].
  intros p1 Hs.
  destruct (marker_layer_cleared_before_query second_search_page
              second_search_page_reachable) as [Hclear _].
  destruct (Hclear 48 17 p1 Hs) as [_ [_ [Hl [Hq _]]]].
  split; [exact Hl | exact Hq].
Defined.

(* ================================================================= *)
(** * Checks on concrete inputs *)

Example found_message :
  Msg.found 12 6 = "Found 12 places, showing closest 6."%string.
Proof. reflexivity. Qed.

Example name_of_named_node : resolve_name named_node = "Hotel Sacher"%string.
Proof. reflexivity. Qed.

Example name_of_untagged_node : resolve_name node_unnamed = unnamed_hotel.
Proof. reflexivity. Qed.

Example click_without_geolocation :
  step initial (Click false) = Some (set_status Msg.not_supported initial).
Proof. reflexivity. Qed.

Example click_on_disabled_button :
  step acquiring_page (Click true) = None.
Proof. reflexivity. Qed.

Example denied_search :
  run initial [Click true; PositionError]
  = Some (set_status Msg.location_denied initial).
Proof. reflexivity. Qed.

(* ================================================================= *)
(** * Further properties: parsing and ranking *)

Lemma candidates_app (lat lon : R) (els1 els2 : list element) :
  candidates lat lon (els1 ++ els2) =
  candidates lat lon els1 ++ candidates lat lon els2.
Proof.
  induction els1 as [|el els1 IH]; simpl; [reflexivity|].
  destruct (parse_element lat lon el); rewrite IH; reflexivity.
Qed.

(** X4: the loop keeps the order of the response (parsing two lists one
    after the other is parsing them joined), and [results] holds exactly
    the objects built from the elements with a resolved coordinate: the
    resolved place, the resolved name, the distance from the user. *)
Theorem parse_keeps_order_and_source (lat lon : R) :
  (forall els1 els2,
      parse lat lon (Some (els1 ++ els2)) =
      parse lat lon (Some els1) ++ parse lat lon (Some els2)) /\
  (forall elements h,
      In h (parse lat lon elements) <->
      exists el hLat hLon,
        In el (elements_or_empty elements) /\
        resolve_coord el = Some (hLat, hLon) /\
        h = {| h_name := resolve_name el; h_lat := hLat; h_lon := hLon;
               h_distanceKm := distanceKm lat lon hLat hLon |}).
Proof.
  split.
  - intros els1 els2. rewrite !parse_candidates. apply candidates_app.
  - intros elements h. rewrite parse_candidates, candidates_in. split.
    + intros [el [Hin Hp]]. unfold parse_element in Hp.
      destruct (resolve_coord el) as [[hLat hLon]|] eqn:Hr; [|discriminate].
      injection Hp as <-. exists el, hLat, hLon. repeat split; assumption.
    + intros [el [hLat [hLon [Hin [Hr ->]]]]]. exists el.
      split; [exact Hin|]. unfold parse_element. rewrite Hr. reflexivity.
Qed.

(** X5: where the coordinate comes from depends on the type.  A node with
    latitude and longitude present and not 0 is placed there, whatever
    its centre says; an element of any other type is placed as if it had
    no latitude and longitude of its own: only its centre counts. *)
Theorem coordinate_source_by_type (el : element) :
  (forall la lo,
      el_type el = Some "node"%string ->
      el_lat el = Some la -> el_lon el = Some lo ->
      la <> 0 -> lo <> 0 ->
      resolve_coord el = Some (la, lo)) /\
  (el_type el <> Some "node"%string ->
   resolve_coord el = resolve_coord (without_own_coords el) /\
   (el_center el = None -> resolve_coord el = None)).
Proof.
  split.
  - intros la lo. apply resolve_coord_own.
  - intro Hty.
    assert (Hnode : node_with_coords el = false).
    { unfold node_with_coords. destruct (el_type el) as [t|]; [|reflexivity].
      destruct (String.eqb_spec t "node") as [->|_]; [|reflexivity].
      contradiction Hty. reflexivity. }
    assert (Hnode' : node_with_coords (without_own_coords el) = false).
    { unfold node_with_coords. simpl. apply andb_false_r. }
    unfold resolve_coord. rewrite Hnode, Hnode'. split.
    + reflexivity.
    + intro Hc. unfold center_with_coords. rewrite Hc. reflexivity.
Qed.

(** A way that carries a latitude and a longitude but no centre. *)
Lemma coordinate_source_witness :
  resolve_coord
    {| el_type := Some "way"%string; el_lat := Some 48; el_lon := Some 16;
       el_center := None; el_tags := None |} = None.
Proof.
  destruct (coordinate_source_by_type
              {| el_type := Some "way"%string; el_lat := Some 48;
                 el_lon := Some 16; el_center := None; el_tags := None |})
    as [_ Hother].
  apply Hother.
  - discriminate.
  - reflexivity.
Defined.

Lemma firstn_incl {A : Type} (n : nat) (l : list A) (x : A) :
  In x (firstn n l) -> In x l.
Proof.
  intro H. rewrite <- (firstn_skipn n l). apply in_or_app. left. exact H.
Qed.

Lemma top_of_incl (results : list hotel) (h : hotel) :
  In h (top_of results) -> In h results.
Proof.
  intro H. unfold top_of, JS.slice0 in H. apply firstn_incl in H.
  apply (Permutation_in h (sort_perm h_distanceKm results)). exact H.
Qed.

(* ================================================================= *)
(** * Further properties: rendering and the request *)

(** X7: [plotHotelsOnMap] does nothing while there is no marker layer
    (no position has been fixed yet); once there is one, it replaces the
    markers by one marker per hotel, in order, and leaves the list view
    alone. *)
Theorem plotHotelsOnMap_replaces_markers (hotels : list hotel) (p : page) :
  (hotelsLayer p = None -> plotHotelsOnMap hotels p = Normal tt p) /\
  (forall old,
      hotelsLayer p = Some old ->
      plotHotelsOnMap hotels p
      = Normal tt (set_hotelsLayer (Some (List.map marker_of hotels)) p)) /\
  hotelsList (page_after (plotHotelsOnMap hotels p)) = hotelsList p.
Proof.
  rewrite plotHotelsOnMap_eq. unfold plotted. split; [|split].
  - intros ->. reflexivity.
  - intros old ->. reflexivity.
  - destruct (hotelsLayer p); reflexivity.
Qed.

(** X8: [fetchHotels] lets no exception escape, whatever the request
    brings, and it touches only the status, the list view and the
    markers: the button, the pending callback, the requests made, the
    map view and the user's marker are as before, and it never creates
    the marker layer. *)
Theorem fetchHotels_catches_everything
        (lat lon : R) (r : fetch_result) (p : page) :
  exists p',
    fetchHotels_resume lat lon r p = Normal tt p' /\
    findBtn_disabled p' = findBtn_disabled p /\
    waiting p' = waiting p /\
    requests p' = requests p /\
    map p' = map p /\
    userMarker p' = userMarker p /\
    (hotelsLayer p' = None <-> hotelsLayer p = None).
Proof.
  exists (page_after (fetchHotels_resume lat lon r p)).
  split; [apply resume_normal|].
  destruct (resume_frame lat lon r p) as [H1 [H2 [H3 [H4 H5]]]].
  repeat (split; [assumption|]).
  destruct r as [|res].
  - rewrite resume_failure by reflexivity. reflexivity.
  - destruct (res_ok res) eqn:Hok.
    + destruct (res_body res) as [|elements|m] eqn:Hb.
      * rewrite resume_invalid_body by assumption. reflexivity.
      * rewrite (resume_parsed _ _ _ _ elements) by assumption.
        destruct (parse lat lon elements); [reflexivity|].
        unfold rendered_page, plotted. simpl.
        destruct (hotelsLayer p) as [ms|] eqn:Hl; simpl; rewrite ?Hl;
          split; intro Hx; try discriminate Hx; reflexivity.
      * rewrite (resume_malformed _ _ _ _ m) by assumption. reflexivity.
    + rewrite resume_failure by (simpl; rewrite Hok; reflexivity).
      reflexivity.
Qed.

(* ================================================================= *)
(** * Further properties: the event loop *)

(** ** One step, case by case *)

Lemma step_cases (p p' : page) (e : event) :
  step p e = Some p' ->
  (exists geolocation,
      e = Click geolocation /\ findBtn_disabled p = false /\
      p' = page_after (getLocationAndSearch geolocation p)) \/
  (exists lat lon,
      e = PositionSuccess lat lon /\ waiting p = AwaitPosition /\
      p' = page_after (on_position lat lon p)) \/
  (e = PositionError /\ waiting p = AwaitPosition /\
   p' = page_after (on_position_error p)) \/
  (exists lat lon r,
      e = FetchSettled r /\ waiting p = AwaitFetch lat lon /\
      p' = set_waiting NoCallback
             (set_disabled false
                (page_after (fetchHotels_resume lat lon r p)))).
Proof.
  intro Hs. unfold step in Hs. destruct e as [geo|lat lon| |r].
  - left. exists geo.
    assert (Hclick :
      (if findBtn_disabled p then None
       else Some (page_after (getLocationAndSearch geo p))) = Some p')
      by (destruct (waiting p); exact Hs).
    destruct (findBtn_disabled p); [discriminate|].
    injection Hclick as <-. repeat split.
  - right. left. exists lat, lon.
    destruct (waiting p); try discriminate.
    injection Hs as <-. repeat split.
  - right. right. left.
    destruct (waiting p); try discriminate.
    injection Hs as <-. repeat split.
  - right. right. right.
    destruct (waiting p) as [| |lat lon] eqn:Hw; try discriminate.
    injection Hs as <-. exists lat, lon, r.
    rewrite on_fetch_settled_eq. repeat split.
Qed.

Lemma resume_cases (lat lon : R) (r : fetch_result) (p : page) :
  page_after (fetchHotels_resume lat lon r p) = error_page p \/
  page_after (fetchHotels_resume lat lon r p) = no_results_page p \/
  exists elements,
    parse lat lon elements <> [] /\
    page_after (fetchHotels_resume lat lon r p)
    = rendered_page (parse lat lon elements) p.
Proof.
  destruct r as [|res].
  - left. rewrite resume_failure by reflexivity. reflexivity.
  - destruct (res_ok res) eqn:Hok.
    + destruct (res_body res) as [|elements|m] eqn:Hb.
      * left. rewrite resume_invalid_body by assumption. reflexivity.
      * rewrite (resume_parsed _ _ _ _ elements) by assumption.
        destruct (parse lat lon elements) as [|h results] eqn:E.
        -- right. left. reflexivity.
        -- right. right. exists elements. rewrite E.
           split; [discriminate | reflexivity].
      * left. rewrite (resume_malformed _ _ _ _ m) by assumption. reflexivity.
    + left. rewrite resume_failure by (simpl; rewrite Hok; reflexivity).
      reflexivity.
Qed.

Lemma rendered_page_fields (results : list hotel) (p : page) :
  hotelsList (rendered_page results p) = List.map card_of (top_of results) /\
  hotelsLayer (rendered_page results p)
  = match hotelsLayer p with
    | Some _ => Some (List.map marker_of (top_of results))
    | None => None
    end /\
  status (rendered_page results p)
  = Msg.found (List.length results) (Nat.min 6 (List.length results)) /\
  userMarker (rendered_page results p) = userMarker p.
Proof.
  assert (Hs : List.length (sort_results results) = List.length results).
  { unfold sort_results. apply (sort_length h_distanceKm). }
  assert (Ht : List.length (top_of results)
               = Nat.min 6 (List.length results)).
  { unfold top_of, JS.slice0. rewrite length_firstn, Hs. reflexivity. }
  unfold rendered_page, plotted. rewrite Hs, Ht.
  cbn [hotelsLayer set_hotelsList].
  destruct (hotelsLayer p) as [ms|] eqn:Hl;
    cbn [hotelsList hotelsLayer status userMarker set_status set_hotelsList
         set_hotelsLayer];
    rewrite ?Hl; repeat split.
Qed.

Lemma idle_of_enabled (p : page) :
  inv p -> findBtn_disabled p = false -> waiting p = NoCallback.
Proof.
  intros [Hdis _] Hd. destruct (waiting p); try reflexivity;
    (assert (findBtn_disabled p = true) by (apply Hdis; discriminate);
     congruence).
Qed.

Lemma parsed_distance (lat lon : R) (elements : option (list element))
      (h : hotel) :
  In h (parse lat lon elements) ->
  h_distanceKm h = distanceKm lat lon (h_lat h) (h_lon h).
Proof.
  rewrite parse_candidates, candidates_in. intros [el [_ Hp]].
  unfold parse_element in Hp.
  destruct (resolve_coord el) as [[hLat hLon]|]; [|discriminate].
  injection Hp as <-. reflexivity.
Qed.

Lemma views_of_hotels (hotels : list hotel) :
  List.map card_view (List.map card_of hotels)
  = List.map marker_view (List.map marker_of hotels).
Proof. rewrite !map_map. reflexivity. Qed.

(** ** The invariants are kept by every step *)

Lemma step_inv_sync (p p' : page) (e : event) :
  inv p -> inv_sync p -> step p e = Some p' -> inv_sync p'.
Proof.
  intros Hi Hsync Hs. unfold inv_sync in *.
  destruct (step_cases p p' e Hs)
    as [[geo [-> [Hd ->]]]
       |[[lat [lon [-> [Hw ->]]]]
        |[[-> [Hw ->]]
         |[lat [lon [r [-> [Hw ->]]]]]]]].
  - pose proof (idle_of_enabled p Hi Hd) as Hw. intros _.
    assert (Hs0 : list_view p = map_view p)
      by (apply Hsync; unfold is_searching; rewrite Hw; reflexivity).
    destruct geo; exact Hs0.
  - rewrite on_position_eq. discriminate.
  - intros _. apply Hsync. unfold is_searching. rewrite Hw. reflexivity.
  - intros _. destruct Hi as [_ Hlayer]. pose proof (Hlayer lat lon Hw) as Hl.
    unfold list_view, map_view.
    cbn [hotelsList hotelsLayer set_waiting set_disabled].
    destruct (resume_cases lat lon r p) as [->|[->|[elements [_ ->]]]].
    + cbn. rewrite Hl. reflexivity.
    + cbn. rewrite Hl. reflexivity.
    + destruct (rendered_page_fields (parse lat lon elements) p)
        as [-> [-> _]].
      rewrite Hl. apply views_of_hotels.
Qed.

Lemma step_inv_capped (p p' : page) (e : event) :
  inv_capped p -> step p e = Some p' -> inv_capped p'.
Proof.
  intros [Hlen Hmark] Hs. unfold inv_capped in *.
  destruct (step_cases p p' e Hs)
    as [[geo [-> [Hd ->]]]
       |[[lat [lon [-> [Hw ->]]]]
        |[[-> [Hw ->]]
         |[lat [lon [r [-> [Hw ->]]]]]]]].
  - destruct geo; split; assumption.
  - rewrite on_position_eq. unfold map_view. cbn. split; [assumption | lia].
  - split; assumption.
  - unfold map_view in *.
    cbn [hotelsList hotelsLayer set_waiting set_disabled].
    destruct (resume_cases lat lon r p) as [->|[->|[elements [_ ->]]]].
    + cbn. split; [lia | exact Hmark].
    + cbn. split; [lia | exact Hmark].
    + destruct (rendered_page_fields (parse lat lon elements) p)
        as [-> [-> _]].
      assert (Htop : (List.length (top_of (parse lat lon elements)) <= 6)%nat).
      { unfold top_of, JS.slice0. rewrite length_firstn. lia. }
      split.
      * rewrite length_map. exact Htop.
      * destruct (hotelsLayer p); [|simpl; lia].
        rewrite !length_map. exact Htop.
Qed.

Lemma step_inv_map (p p' : page) (e : event) :
  inv_map p -> step p e = Some p' -> inv_map p'.
Proof.
  intros [Hum [Hstate Hfix]] Hs. unfold inv_map in *.
  destruct (step_cases p p' e Hs)
    as [[geo [-> [Hd ->]]]
       |[[lat [lon [-> [Hw ->]]]]
        |[[-> [Hw ->]]
         |[lat [lon [r [-> [Hw ->]]]]]]]].
  - destruct geo; cbn; repeat split; try assumption; discriminate.
  - rewrite on_position_eq. cbn. repeat split.
    + exists []. reflexivity.
    + exists (requests p). reflexivity.
    + intros lat' lon' H. injection H as <- <-. reflexivity.
  - cbn. repeat split; try assumption. discriminate.
  - destruct (resume_frame lat lon r p) as [_ [_ [Hrq [Hm Hu]]]].
    cbn [map userMarker hotelsLayer requests waiting set_waiting set_disabled].
    rewrite Hrq, Hm, Hu. repeat split; try assumption; [|discriminate].
    destruct (map p) as [[la lo]|].
    + destruct Hstate as [[ms Hl] Hreq]. split; [|exact Hreq].
      destruct (resume_cases lat lon r p) as [->|[->|[elements [_ ->]]]].
      * exists ms. exact Hl.
      * exists ms. exact Hl.
      * destruct (rendered_page_fields (parse lat lon elements) p)
          as [_ [-> _]].
        rewrite Hl. eexists. reflexivity.
    + specialize (Hfix lat lon Hw). discriminate.
Qed.

Lemma step_inv_distances (p p' : page) (e : event) :
  inv p -> inv_map p -> inv_distances p ->
  step p e = Some p' -> inv_distances p'.
Proof.
  intros Hi [Hum [_ Hfix]] Hdist Hs. unfold inv_distances in *.
  destruct (step_cases p p' e Hs)
    as [[geo [-> [Hd ->]]]
       |[[lat [lon [-> [Hw ->]]]]
        |[[-> [Hw ->]]
         |[lat [lon [r [-> [Hw ->]]]]]]]].
  - pose proof (idle_of_enabled p Hi Hd) as Hw. intros _.
    assert (Hs0 := Hdist ltac:(unfold is_searching; rewrite Hw; reflexivity)).
    destruct geo; exact Hs0.
  - rewrite on_position_eq. discriminate.
  - intros _. apply Hdist. unfold is_searching. rewrite Hw. reflexivity.
  - intros _ c Hc.
    assert (Hmarker : userMarker p = Some (lat, lon))
      by (rewrite <- Hum; apply Hfix; exact Hw).
    cbn [hotelsList userMarker set_waiting set_disabled] in *.
    destruct (resume_cases lat lon r p) as [Hp|[Hp|[elements [_ Hp]]]];
      rewrite Hp in *.
    + contradiction.
    + contradiction.
    + destruct (rendered_page_fields (parse lat lon elements) p)
        as [Hlist [_ [_ Hu]]].
      rewrite Hlist in Hc. rewrite Hu, Hmarker.
      apply in_map_iff in Hc. destruct Hc as [h [<- Hh]].
      exists lat, lon. split; [reflexivity|]. cbn.
      apply (parsed_distance lat lon elements).
      apply top_of_incl. exact Hh.
Qed.

Lemma step_inv_status (p p' : page) (e : event) :
  inv p -> inv_status p -> step p e = Some p' -> inv_status p'.
Proof.
  intros Hi Hst Hs. unfold inv_status in *.
  destruct (step_cases p p' e Hs)
    as [[geo [-> [Hd ->]]]
       |[[lat [lon [-> [Hw ->]]]]
        |[[-> [Hw ->]]
         |[lat [lon [r [-> [Hw ->]]]]]]]].
  - pose proof (idle_of_enabled p Hi Hd) as Hw.
    destruct geo; cbn; [reflexivity|].
    rewrite Hw. right. left. reflexivity.
  - rewrite on_position_eq. reflexivity.
  - cbn. right. right. left. reflexivity.
  - cbn [waiting status set_waiting set_disabled].
    destruct (resume_cases lat lon r p) as [->|[->|[elements [Hne ->]]]].
    + cbn. right. right. right. right. left. reflexivity.
    + cbn. right. right. right. left. reflexivity.
    + destruct (rendered_page_fields (parse lat lon elements) p)
        as [_ [_ [-> _]]].
      right. right. right. right. right.
      exists (List.length (parse lat lon elements)). split; [|reflexivity].
      destruct (parse lat lon elements); [contradiction Hne; reflexivity|].
      simpl. lia.
Qed.

Lemma inv_all_initial : inv_all initial.
Proof.
  split; [exact inv_initial|].
  split; [intros _; reflexivity|].
  split; [split; simpl; lia|].
  split; [repeat split; discriminate|].
  split; [intros _ c []|].
  left. reflexivity.
Qed.

Lemma step_inv_all (p p' : page) (e : event) :
  inv_all p -> step p e = Some p' -> inv_all p'.
Proof.
  intros [Hi [Hsync [Hr [Hm [Hd Hst]]]]] Hs.
  split; [eapply step_inv; eassumption|].
  split; [eapply step_inv_sync; eassumption|].
  split; [eapply step_inv_capped; eassumption|].
  split; [eapply step_inv_map; eassumption|].
  split; [eapply (step_inv_distances p); eassumption|].
  eapply step_inv_status; eassumption.
Qed.

Lemma reachable_inv_all (p : page) : reachable p -> inv_all p.
Proof.
  intros [es Hr]. revert Hr. generalize inv_all_initial.
  generalize initial. revert p.
  induction es as [|e es IH]; intros p q Hq Hr; simpl in Hr.
  - injection Hr as <-. exact Hq.
  - destruct (step q e) as [q1|] eqn:Hs; [|discriminate].
    apply (IH p q1); [eapply step_inv_all; eassumption | exact Hr].
Qed.

(** ** What holds on every page the event loop can reach *)

Lemma first_search_page_reachable : reachable first_search_page.
Proof.
  exists ([Click true; PositionSuccess 48 16] ++
          [FetchSettled
             (FetchResponse (Response true 200 (BodyJson (Some [named_node]))))]).
  rewrite run_app, searching_page_reachable.
  cbn [run step searching_page waiting].
  rewrite on_fetch_settled_eq.
  rewrite (resume_parsed 48 16 _ _ (Some [named_node])) by reflexivity.
  assert (Hp : parse 48 16 (Some [named_node]) = [named_hotel 48 16]).
  { rewrite parse_candidates. simpl. rewrite parse_named_node. reflexivity. }
  rewrite Hp. reflexivity.
Qed.

(** X11: whenever no request is in flight, the list view and the map
    show the same hotels: the same names, distances and places, in the
    same order.  (While a request is in flight the markers are already
    gone and the list still shows the previous search.) *)
Theorem list_and_map_agree (p : page) :
  reachable p ->
  is_searching p = false ->
  list_view p = map_view p.
Proof.
  intros Hr. destruct (reachable_inv_all p Hr) as [_ [Hsync _]]. exact Hsync.
Qed.

Lemma list_and_map_agree_witness :
  list_view first_search_page = map_view first_search_page.
Proof.
  apply (list_and_map_agree first_search_page first_search_page_reachable).
  reflexivity.
Defined.

(** X12: on every reachable page the list view holds at most six cards
    and the map at most six hotel markers. *)
Theorem at_most_six_shown (p : page) :
  reachable p ->
  (List.length (hotelsList p) <= 6)%nat /\
  (List.length (map_view p) <= 6)%nat.
Proof.
  intros Hr. destruct (reachable_inv_all p Hr) as [_ [_ [Hcap _]]].
  exact Hcap.
Qed.

Lemma at_most_six_shown_witness :
  (List.length (hotelsList second_search_page) <= 6)%nat /\
  (List.length (map_view second_search_page) <= 6)%nat.
Proof.
  apply (at_most_six_shown second_search_page second_search_page_reachable).
Defined.

(** X13: whenever no request is in flight, every distance in the list
    view is the distance from the user's marker on the map to the place
    the card's button opens. *)
Theorem shown_distance_is_from_user_marker (p : page) (c : card) :
  reachable p ->
  is_searching p = false ->
  In c (hotelsList p) ->
  exists ulat ulon,
    userMarker p = Some (ulat, ulon) /\
    card_distance c =
    distanceKm ulat ulon (fst (card_query c)) (snd (card_query c)).
Proof.
  intros Hr Hs Hc.
  destruct (reachable_inv_all p Hr) as [_ [_ [_ [_ [Hdist _]]]]].
  exact (Hdist Hs c Hc).
Qed.

Lemma shown_distance_witness :
  exists ulat ulon,
    userMarker first_search_page = Some (ulat, ulon) /\
    card_distance (card_of (named_hotel 48 16)) =
    distanceKm ulat ulon 48 16.
Proof.
  apply (shown_distance_is_from_user_marker first_search_page
           (card_of (named_hotel 48 16)) first_search_page_reachable).
  - reflexivity.
  - left. reflexivity.
Defined.

(** X14: the user's marker is created by the first position fix and
    follows the last one: before any fix there is no marker, no marker
    layer and no request; afterwards the layer exists and the last request
    asked for 3000 m around the user's marker; and a request in flight is
    for the place of the user's marker. *)
Theorem user_marker_follows_last_position (p : page) :
  reachable p ->
  match userMarker p with
  | Some (la, lo) =>
      (exists ms, hotelsLayer p = Some ms) /\
      (exists rs, requests p = rs ++ [Query 3000 la lo])
  | None => hotelsLayer p = None /\ requests p = []
  end /\
  (forall lat lon,
      waiting p = AwaitFetch lat lon -> userMarker p = Some (lat, lon)).
Proof.
  intros Hr.
  destruct (reachable_inv_all p Hr) as [_ [_ [_ [[Hum [Hstate Hfix]] _]]]].
  rewrite <- Hum. split; assumption.
Qed.

Lemma user_marker_witness :
  exists rs, requests second_search_page = rs ++ [Query 3000 48 16].
Proof.
  destruct (user_marker_follows_last_position second_search_page
              second_search_page_reachable) as [[_ Hlast] _].
  exact Hlast.
Defined.

(** X15: the status tells the phase: "Getting your location…" while the
    position is awaited, "Searching for hotels nearby…" while the request
    is in flight; otherwise it is the initial text, one of the three
    error texts, the no-results text, or "Found n places, showing closest
    m." with [n >= 1] and [m] the smaller of 6 and [n]. *)
Theorem status_follows_phase (p : page) :
  reachable p ->
  match phase_of p with
  | AcquiringLocation => status p = Msg.getting_location
  | Searching => status p = Msg.searching
  | Idle =>
      status p = Msg.waiting_for_search \/ status p = Msg.not_supported \/
      status p = Msg.location_denied \/ status p = Msg.no_hotels \/
      status p = Msg.server_error \/
      exists n, (1 <= n)%nat /\ status p = Msg.found n (Nat.min 6 n)
  end.
Proof.
  intros Hr.
  destruct (reachable_inv_all p Hr) as [_ [_ [_ [_ [_ Hstatus]]]]].
  unfold inv_status in Hstatus. unfold phase_of.
  destruct (waiting p); exact Hstatus.
Qed.

Lemma status_follows_phase_witness :
  status second_search_page = Msg.getting_location.
Proof.
  apply (status_follows_phase second_search_page
           second_search_page_reachable).
Defined.

(** X18: on a reachable page exactly the events of its phase can happen:
    a click when idle, the position callbacks while the position is
    awaited, the settling of the request while it is in flight.  So a
    click cannot start a second search before the first has ended. *)
Theorem events_follow_phase (p : page) (e : event) :
  reachable p ->
  ((exists p', step p e = Some p') <-> expected p e).
Proof.
  intro Hr. pose proof (reachable_inv p Hr) as Hi. split.
  - intros [p' Hs].
    destruct (step_cases p p' e Hs)
      as [[geo [-> [Hd _]]]
         |[[lat [lon [-> [Hw _]]]]
          |[[-> [Hw _]]
           |[lat [lon [r [-> [Hw _]]]]]]]];
      unfold expected, phase_of.
    + rewrite (idle_of_enabled p Hi Hd). reflexivity.
    + rewrite Hw. reflexivity.
    + rewrite Hw. reflexivity.
    + rewrite Hw. reflexivity.
  - unfold expected, phase_of, step. destruct Hi as [Hdis _].
    destruct e as [geo|lat lon| |r]; destruct (waiting p) eqn:Hw;
      try discriminate; intros _; try (eexists; reflexivity).
    destruct (findBtn_disabled p); [|eexists; reflexivity].
    exfalso. apply (proj1 Hdis); reflexivity.
Qed.

Lemma events_follow_phase_witness :
  phase_of second_search_page = AcquiringLocation /\
  exists p', step second_search_page PositionError = Some p'.
Proof.
  split; [reflexivity|].
  apply (events_follow_phase second_search_page PositionError
           second_search_page_reachable).
  reflexivity.
Defined.

(** ** Requests and events *)

Lemma step_counts (p p' : page) (e : event) :
  inv p -> step p e = Some p' ->
  List.length (requests p') = (List.length (requests p) + count_positions [e])%nat /\
  (in_flight p + count_positions [e] = count_settled [e] + in_flight p')%nat /\
  (Forall (fun q => q_radius q = radiusMeters) (requests p) ->
   Forall (fun q => q_radius q = radiusMeters) (requests p')).
Proof.
  intros Hi Hs.
  destruct (step_cases p p' e Hs)
    as [[geo [-> [Hd ->]]]
       |[[lat [lon [-> [Hw ->]]]]
        |[[-> [Hw ->]]
         |[lat [lon [r [-> [Hw ->]]]]]]]].
  - pose proof (idle_of_enabled p Hi Hd) as Hw.
    unfold in_flight, is_searching.
    destruct geo; cbn; rewrite ?Hw; repeat split; try lia; auto.
  - rewrite on_position_eq. unfold in_flight, is_searching. cbn.
    rewrite Hw, length_app. cbn. repeat split; try lia.
    intro Hall. apply Forall_app. split; [exact Hall|].
    constructor; [reflexivity | constructor].
  - unfold in_flight, is_searching. cbn. rewrite Hw.
    repeat split; try lia; auto.
  - destruct (resume_frame lat lon r p) as [_ [_ [Hrq _]]].
    unfold in_flight, is_searching.
    cbn [requests waiting set_waiting set_disabled count_positions
         count_settled].
    rewrite Hrq, Hw. repeat split; try lia; auto.
Qed.

Lemma run_counts (es : list event) :
  forall p p',
    inv p -> run p es = Some p' ->
    List.length (requests p') = (List.length (requests p) + count_positions es)%nat /\
    (in_flight p + count_positions es = count_settled es + in_flight p')%nat /\
    (Forall (fun q => q_radius q = radiusMeters) (requests p) ->
     Forall (fun q => q_radius q = radiusMeters) (requests p')).
Proof.
  induction es as [|e es IH]; intros p p' Hi Hr; simpl in Hr.
  - injection Hr as <-. simpl. repeat split; try lia; auto.
  - destruct (step p e) as [p1|] eqn:Hs; [|discriminate].
    destruct (step_counts p p1 e Hi Hs) as [H1 [H2 H3]].
    destruct (IH p1 p' (step_inv p p1 e Hi Hs) Hr) as [H4 [H5 H6]].
    assert (Hpos : count_positions (e :: es)
                   = (count_positions [e] + count_positions es)%nat)
      by (destruct e; reflexivity).
    assert (Hset : count_settled (e :: es)
                   = (count_settled [e] + count_settled es)%nat)
      by (destruct e; reflexivity).
    rewrite Hpos, Hset. repeat split; try lia. auto.
Qed.

(** X16: in every run of events from the initial page, one request is
    made per position fix and none otherwise; every request has settled
    except the one in flight, if any, so two requests never overlap; and
    every request asks for a radius of 3000 m. *)
Theorem one_request_per_position (es : list event) (p : page) :
  run initial es = Some p ->
  List.length (requests p) = count_positions es /\
  count_positions es = (count_settled es + in_flight p)%nat /\
  (in_flight p <= 1)%nat /\
  Forall (fun q => q_radius q = 3000%nat) (requests p).
Proof.
  intro Hr.
  destruct (run_counts es initial p inv_initial Hr) as [H1 [H2 H3]].
  simpl in H1, H2. repeat split.
  - exact H1.
  - exact H2.
  - unfold in_flight. destruct (is_searching p); lia.
  - apply H3. constructor.
Qed.

(** Two searches, the second still in flight. *)
Lemma one_request_witness :
  exists p,
    run initial [Click true; PositionSuccess 48 16;
                 FetchSettled FetchRejected;
                 Click true; PositionSuccess 48 17] = Some p /\
    List.length (requests p) = 2%nat /\ in_flight p = 1%nat.
Proof.
  eexists. split; [reflexivity|].
  split; [|reflexivity].
  refine (proj1 (one_request_per_position
                   [Click true; PositionSuccess 48 16;
                    FetchSettled FetchRejected;
                    Click true; PositionSuccess 48 17] _ eq_refl)).
Defined.

(** X17: only the settling of a request changes the list view; and a
    click or a refused position changes neither the markers, nor the map
    view, nor the user's marker, nor the requests: after a refused
    position the page still shows the hotels of the search before. *)
Theorem events_leave_results (p p' : page) (e : event) :
  step p e = Some p' ->
  ((forall r, e <> FetchSettled r) -> hotelsList p' = hotelsList p) /\
  ((forall r, e <> FetchSettled r) ->
   (forall lat lon, e <> PositionSuccess lat lon) ->
   hotelsLayer p' = hotelsLayer p /\ map p' = map p /\
   userMarker p' = userMarker p /\ requests p' = requests p).
Proof.
  intro Hs.
  destruct (step_cases p p' e Hs)
    as [[geo [-> [Hd ->]]]
       |[[lat [lon [-> [Hw ->]]]]
        |[[-> [Hw ->]]
         |[lat [lon [r [-> [Hw ->]]]]]]]].
  - destruct geo; repeat split.
  - rewrite on_position_eq. split; [reflexivity|].
    intros _ H. contradiction (H lat lon). reflexivity.
  - repeat split.
  - split; intro H; contradiction (H r); reflexivity.
Qed.

(** A second search whose position request is refused. *)
Lemma events_leave_results_witness :
  step second_search_page PositionError
  = Some (page_after (on_position_error second_search_page)) /\
  hotelsList (page_after (on_position_error second_search_page))
  = [card_of (named_hotel 48 16)] /\
  hotelsLayer (page_after (on_position_error second_search_page))
  = Some [marker_of (named_hotel 48 16)].
Proof.
  split; [reflexivity|].
  destruct (events_leave_results second_search_page
              (page_after (on_position_error second_search_page))
              PositionError eq_refl)
    as [Hlist Hmap].
  split.
  - apply Hlist. discriminate.
  - apply Hmap; discriminate.
Defined.

(** X19: what a search shows does not depend on what was shown before:
    for the same position and the same outcome of the request, two pages
    end with the same status and the same list view, and with the same
    markers when both have a marker layer. *)
Theorem search_result_ignores_history
        (lat lon : R) (r : fetch_result) (p q : page) :
  let p' := page_after (fetchHotels_resume lat lon r p) in
  let q' := page_after (fetchHotels_resume lat lon r q) in
  status p' = status q' /\
  hotelsList p' = hotelsList q' /\
  (hotelsLayer p = Some [] -> hotelsLayer q = Some [] ->
   hotelsLayer p' = hotelsLayer q').
Proof.
  intros p' q'. subst p' q'.
  destruct r as [|res].
  - rewrite !resume_failure by reflexivity. cbn. repeat split; congruence.
  - destruct (res_ok res) eqn:Hok.
    + destruct (res_body res) as [|elements|m] eqn:Hb.
      * rewrite !resume_invalid_body by assumption. cbn.
        repeat split; congruence.
      * rewrite !(resume_parsed _ _ _ _ elements) by assumption.
        destruct (parse lat lon elements) as [|h results].
        -- cbn. repeat split; congruence.
        -- cbn [page_after].
           destruct (rendered_page_fields (h :: results) p)
             as [-> [-> [-> _]]].
           destruct (rendered_page_fields (h :: results) q)
             as [-> [-> [-> _]]].
           repeat split. intros -> ->. reflexivity.
      * rewrite !(resume_malformed _ _ _ _ m) by assumption. cbn.
        repeat split; congruence.
    + rewrite !resume_failure by (simpl; rewrite Hok; reflexivity).
      cbn. repeat split; congruence.
Qed.

(** ** The page without one of its elements *)

Example handler_with_all_elements :
  DOMContentLoaded true true true true = Some initial.
Proof. reflexivity. Qed.

Example handler_without_map_container :
  DOMContentLoaded true true true false = None.
Proof. reflexivity. Qed.
